(** * Compact JWS signing and verification (tbdex-js [Crypto])

    A shallow embedding of the [Crypto] class: the algorithm registry
    [Crypto.algorithms], [Crypto.digest], [Crypto.sign] and [Crypto.verify].

    Conventions.
    - A JavaScript string is represented by the bytes of its UTF-8 encoding,
      as a [string] of 8-bit characters, so [Convert.string(s).toUint8Array()]
      is [list_byte_of_string s].  Splitting on ['.'] or ['#'] is not affected
      by this choice: both separators are ASCII.
    - A [Uint8Array] is a [list byte].
    - A value produced by [JSON.parse] is a [json]; a property read that may
      yield [undefined] is an [option json].
    - The packages the module imports ([@web5/common], [@web5/crypto],
      [@noble/hashes], [canonicalize], [./did-resolver.js]) are collaborators:
      they are the fields of a record the whole development is parameterised
      by.  A collaborator that can throw returns an [option]. *)

From Stdlib Require Import List String Ascii Strings.Byte Bool Arith Lia NArith ZArith.
From Stdlib Require Import DecimalString.
From Stdlib Require Import Permutation Sorted OrderedTypeEx.
Import ListNotations.

Set Implicit Arguments.
Set Warnings "-register-all".

(** ** JavaScript strings *)

Module JsString.

Local Open Scope string_scope.

(** [s.split(sep)] for a one-character separator.  The result is never
    empty: [''.split('.')] is [['']]. *)
Fixpoint split (sep : ascii) (s : string) : list string :=
  match s with
  | EmptyString => [EmptyString]
  | String c rest =>
      if Ascii.eqb c sep then EmptyString :: split sep rest
      else match split sep rest with
           | first :: others => String c first :: others
           | [] => [String c EmptyString]
           end
  end.

(** [s.includes(c)] *)
Fixpoint includes (c : ascii) (s : string) : bool :=
  match s with
  | EmptyString => false
  | String a rest => Ascii.eqb a c || includes c rest
  end.

(** [parts.join(sep)] *)
Definition join (sep : ascii) (parts : list string) : string :=
  String.concat (String sep EmptyString) parts.

(** The characters of [s] that come before the first occurrence of [c]
    (all of [s] when [c] does not occur). *)
Fixpoint before_first (c : ascii) (s : string) : string :=
  match s with
  | EmptyString => EmptyString
  | String a rest => if Ascii.eqb a c then EmptyString
                     else String a (before_first c rest)
  end.

(** [!s] *)
Definition is_empty (s : string) : bool :=
  match s with EmptyString => true | _ => false end.

(** Flipping bit [n] (0 is the least significant) of a character. *)
Definition flip_bit (n : nat) (c : ascii) : ascii :=
  let '(Ascii b0 b1 b2 b3 b4 b5 b6 b7) := c in
  match n with
  | 0 => Ascii (negb b0) b1 b2 b3 b4 b5 b6 b7
  | 1 => Ascii b0 (negb b1) b2 b3 b4 b5 b6 b7
  | 2 => Ascii b0 b1 (negb b2) b3 b4 b5 b6 b7
  | 3 => Ascii b0 b1 b2 (negb b3) b4 b5 b6 b7
  | 4 => Ascii b0 b1 b2 b3 (negb b4) b5 b6 b7
  | 5 => Ascii b0 b1 b2 b3 b4 (negb b5) b6 b7
  | 6 => Ascii b0 b1 b2 b3 b4 b5 (negb b6) b7
  | _ => Ascii b0 b1 b2 b3 b4 b5 b6 (negb b7)
  end.

(** Flipping bit [n] of the character at index [i] of [s]. *)
Fixpoint flip_at (i n : nat) (s : string) : string :=
  match s, i with
  | EmptyString, _ => EmptyString
  | String c rest, 0 => String (flip_bit n c) rest
  | String c rest, S j => String c (flip_at j n rest)
  end.

End JsString.

(** ** JavaScript objects used as maps *)

(** [object[name]] on an object given by its own properties in insertion
    order: [None] is [undefined].  Property names are unique in an object
    built by an object literal or by [JSON.parse]. *)
Fixpoint own_property {V : Type} (name : string) (members : list (string * V)) : option V :=
  match members with
  | [] => None
  | (k, v) :: rest => if String.eqb k name then Some v else own_property name rest
  end.

(** ** JSON values and the JavaScript operations applied to them *)

Section Json.

(** The representation of JavaScript numbers is left open. *)
Variable number : Type.

Inductive json : Type :=
| JNull
| JBool (b : bool)
| JNumber (n : number)
| JString (s : string)
| JArray (elements : list json)
| JObject (members : list (string * json)).

(** Two values are the same JSON value when they differ at most in the
    order of the members of their objects; the member names of an object
    are distinct. *)
Inductive same_value : json -> json -> Prop :=
| same_null : same_value JNull JNull
| same_bool (b : bool) : same_value (JBool b) (JBool b)
| same_number (n : number) : same_value (JNumber n) (JNumber n)
| same_string (s : string) : same_value (JString s) (JString s)
| same_array (xs ys : list json) :
    Forall2 same_value xs ys -> same_value (JArray xs) (JArray ys)
| same_object (ms ms' ns : list (string * json)) :
    Forall2 (fun m m' => fst m = fst m' /\ same_value (snd m) (snd m')) ms ms' ->
    Permutation ms' ns ->
    NoDup (map fst ns) ->
    same_value (JObject ms) (JObject ns).

(** Induction on [same_value] that reaches the elements and members. *)
Section SameValueInduction.

Variable P : json -> json -> Prop.
Hypothesis P_null : P JNull JNull.
Hypothesis P_bool : forall b, P (JBool b) (JBool b).
Hypothesis P_number : forall n, P (JNumber n) (JNumber n).
Hypothesis P_string : forall s, P (JString s) (JString s).
Hypothesis P_array : forall xs ys,
    Forall2 P xs ys -> P (JArray xs) (JArray ys).
Hypothesis P_object : forall ms ms' ns,
    Forall2 (fun m m' => fst m = fst m' /\ P (snd m) (snd m')) ms ms' ->
    Permutation ms' ns ->
    NoDup (map fst ns) ->
    P (JObject ms) (JObject ns).

Fixpoint same_value_induction (v w : json) (same : same_value v w) {struct same}
  : P v w :=
  match same with
  | same_null => P_null
  | same_bool b => P_bool b
  | same_number n => P_number n
  | same_string s => P_string s
  | same_array elements =>
      P_array
        ((fix each xs ys (all : Forall2 same_value xs ys) {struct all}
            : Forall2 P xs ys :=
            match all with
            | Forall2_nil _ => Forall2_nil _
            | Forall2_cons x y same_xy rest =>
                Forall2_cons x y (same_value_induction same_xy) (each _ _ rest)
            end) _ _ elements)
  | same_object members reordered distinct =>
      P_object
        ((fix each ms ms'
            (all : Forall2 (fun m m' => fst m = fst m' /\ same_value (snd m) (snd m'))
                     ms ms') {struct all}
            : Forall2 (fun m m' => fst m = fst m' /\ P (snd m) (snd m')) ms ms' :=
            match all with
            | Forall2_nil _ => Forall2_nil _
            | Forall2_cons m m' (conj same_name same_member) rest =>
                Forall2_cons m m'
                  (conj same_name (same_value_induction same_member))
                  (each _ _ rest)
            end) _ _ members)
        reordered distinct
  end.

End SameValueInduction.

End Json.

Arguments JNull {number}.
Arguments JBool {number} b.
Arguments JString {number} s.

(** What the ECMAScript runtime contributes for numbers and string
    literals: [String(n)], [Boolean(n)] and [JSON.stringify(s)]. *)
Class JsPrimitives (number : Type) : Type := {
  number_toString : number -> string;
  number_toBoolean : number -> bool;
  string_toJSON : string -> string
}.

Section JsOperations.

Context {number : Type} `{JsPrimitives number}.

Local Open Scope string_scope.

(** [Boolean(v)]; [None] is [undefined]. *)
Definition truthy (v : option (json number)) : bool :=
  match v with
  | None => false
  | Some JNull => false
  | Some (JBool b) => b
  | Some (JNumber n) => number_toBoolean n
  | Some (JString s) => negb (JsString.is_empty s)
  | Some (JArray _) => true
  | Some (JObject _) => true
  end.

(** [String(v)], as a template literal computes it. *)
Fixpoint toString (v : json number) : string :=
  match v with
  | JNull => "null"
  | JBool true => "true"
  | JBool false => "false"
  | JNumber n => number_toString n
  | JString s => s
  | JArray elements =>
      String.concat ","
        (map (fun e => match e with JNull => "" | _ => toString e end) elements)
  | JObject _ => "[object Object]"
  end.

Definition template (v : option (json number)) : string :=
  match v with
  | None => "undefined"
  | Some x => toString x
  end.

End JsOperations.

(** ** Data model *)

(** A JSON Web Key: the members the module reads or writes, and the
    remaining ones ([kty], [x], [y], [d], ...) by name. *)
Record Jwk : Type := {
  jwk_alg : option string;
  jwk_crv : option string;
  jwk_ext : option string;
  jwk_key_ops : option (list string);
  jwk_members : list (string * string)
}.

(** [Web5Crypto.EcdsaOptions | Web5Crypto.EdDsaOptions] *)
Inductive AlgorithmOptions : Type :=
| EcdsaOptions (name hash : string)
| EdDsaOptions (name : string).

(** The [CryptoAlgorithm] interface of [@web5/crypto], as far as it is
    used: [signer.sign({ key, data, algorithm })] and
    [signer.verify({ algorithm, key, data, signature })]. *)
Record CryptoAlgorithm (CryptoKey : Type) : Type := {
  signer_sign : option AlgorithmOptions -> CryptoKey -> list byte -> option (list byte);
  signer_verify : option AlgorithmOptions -> CryptoKey -> list byte -> list byte -> option bool
}.

(** [SignerValue<T>] *)
Record SignerValue (CryptoKey : Type) : Type := {
  signer : CryptoAlgorithm CryptoKey;
  options : option AlgorithmOptions;
  alg : string;
  crv : string
}.

(** Modelled from the spec: the value [deferenceDidUrl] of
    [./did-resolver.js] resolves to, "a verification-method record
    {id, type, publicKeyJwk?}", or another resource of the DID document
    ([isVerificationMethod] tells them apart). *)
Inductive DidResource : Type :=
| VerificationMethod (id type : string) (publicKeyJwk : option Jwk)
| OtherResource.

Definition isVerificationMethod (r : DidResource) : bool :=
  match r with
  | VerificationMethod _ _ _ => true
  | OtherResource => false
  end.

Definition publicKeyJwk (r : DidResource) : option Jwk :=
  match r with
  | VerificationMethod _ _ k => k
  | OtherResource => None
  end.

(** [SignOptions] *)
Record SignOptions : Type := {
  detached : bool;
  payload : list byte;
  privateKeyJwk : Jwk;
  kid : string
}.

(** [VerifyOptions] *)
Record VerifyOptions : Type := {
  detachedPayload : option (list byte);
  signature : string
}.

(** ** Errors

    The kinds of the specification, one per [throw] of the module:
    - [UnsupportedAlgorithm id]: [`${algorithmId} not supported`];
    - [MissingSignature]: ['... Expected signature property to exist'];
    - [MalformedSignature]: ['... Expected valid JWS with detached content'];
    - [MalformedHeader]: ['... Expected JWS header to contain alg and kid'];
    - [UnresolvableKey]: ['... Expected kid in JWS header to dereference to a
      DID Document Verification Method'] (with or without [publicKeyJwk]);
    - [IntegrityMismatch]: ['... Integrity mismatch'];
    and the exceptions that escape from elsewhere:
    - [TypeError]: raised by the runtime (a property read on [null] or
      [undefined], a call of something that is not a function);
    - [ConvertFailure]: thrown by [Convert] while decoding;
    - [KeyResolutionFailure], [KeyConversionFailure], [SigningFailure],
      [VerificationFailure]: thrown by [deferenceDidUrl], [Jose.jwkToCryptoKey],
      [signer.sign] and [signer.verify]. *)
Inductive Error : Type :=
| UnsupportedAlgorithm (algorithmId : string)
| MissingSignature
| MalformedSignature
| MalformedHeader
| UnresolvableKey
| IntegrityMismatch
| TypeError
| ConvertFailure
| KeyResolutionFailure
| KeyConversionFailure
| SigningFailure
| VerificationFailure.

Inductive Outcome (A : Type) : Type :=
| Returned (a : A)
| Thrown (e : Error).

Arguments Returned {A} a.
Arguments Thrown {A} e.

(** ** Collaborators and the calls made to them *)

Section Effects.

Variables number CryptoKey : Type.

(** The imported functions. *)
Record Collaborators : Type := {
  (* Convert, from @web5/common *)
  object_toBase64Url : json number -> string;
  uint8Array_toBase64Url : list byte -> string;
  base64Url_toObject : string -> option (json number);
  base64Url_toUint8Array : string -> option (list byte);
  (* Jose, EcdsaAlgorithm, EdDsaAlgorithm, from @web5/crypto *)
  jwkToCryptoKey : Jwk -> option CryptoKey;
  EcdsaAlgorithm : CryptoAlgorithm CryptoKey;
  EdDsaAlgorithm : CryptoAlgorithm CryptoKey;
  (* ./did-resolver.js *)
  deferenceDidUrl : json number -> option DidResource;
  (* @noble/hashes/sha256 *)
  sha256 : list byte -> list byte
}.

(** One entry per awaited call, in the order the calls are made. *)
Inductive Event : Type :=
| DidResolution (didUrl : json number)
| KeyConversion (key : Jwk)
| Signing (key : CryptoKey) (data : list byte)
| Verifying (key : CryptoKey) (data signature : list byte).

(** A run of an [async] function: the calls it made and how it ended. *)
Definition M (A : Type) : Type := (list Event * Outcome A)%type.

Definition ret {A} (a : A) : M A := ([], Returned a).

Definition throw {A} (e : Error) : M A := ([], Thrown e).

Definition bind {A B} (m : M A) (f : A -> M B) : M B :=
  match m with
  | (calls, Thrown e) => (calls, Thrown e)
  | (calls, Returned a) => let (calls', r) := f a in (calls ++ calls', r)
  end.

(** A pure library call that may throw. *)
Definition attempt {A} (r : option A) (e : Error) : M A :=
  match r with
  | Some a => ret a
  | None => throw e
  end.

(** An awaited call to a collaborator. *)
Definition await {A} (ev : Event) (r : option A) (e : Error) : M A :=
  ([ev], match r with Some a => Returned a | None => Thrown e end).

Definition calls {A} (m : M A) : list Event := fst m.
Definition outcome {A} (m : M A) : Outcome A := snd m.

End Effects.

Arguments ret {number CryptoKey A} a.
Arguments throw {number CryptoKey A} e.
Arguments bind {number CryptoKey A B} m f.
Arguments attempt {number CryptoKey A} r e.
Arguments await {number CryptoKey A} ev r e.
Arguments calls {number CryptoKey A} m.
Arguments outcome {number CryptoKey A} m.
Arguments DidResolution {number CryptoKey} didUrl.
Arguments KeyConversion {number CryptoKey} key.
Arguments Signing {number CryptoKey} key data.
Arguments Verifying {number CryptoKey} key data signature.

Notation "x <- m ;; k" := (bind m (fun x => k))
  (at level 61, m at next level, right associativity).

(** ** The [Crypto] class *)

Module Crypto.
Section Crypto.

Context {number CryptoKey : Type} `{JsPrimitives number}.
Variable W : Collaborators number CryptoKey.

Local Open Scope string_scope.

Definition secp256k1Signer : SignerValue CryptoKey := {|
  signer := EcdsaAlgorithm W;
  options := Some (EcdsaOptions "ECDSA" "SHA-256");
  alg := "ES256K";
  crv := "secp256k1"
|}.

Definition ed25519Signer : SignerValue CryptoKey := {|
  signer := EdDsaAlgorithm W;
  options := Some (EdDsaOptions "EdDSA");
  alg := "EdDSA";
  crv := "Ed25519"
|}.

(** supported cryptographic algorithms. keys are [`${alg}:${crv}`]. *)
Definition algorithms : list (string * SignerValue CryptoKey) := [
  ("ES256K:", secp256k1Signer);
  ("ES256K:secp256k1", secp256k1Signer);
  (":secp256k1", secp256k1Signer);
  ("EdDSA:Ed25519", ed25519Signer)
].

(** Modelled from the spec: the imported [canonicalize] (RFC 8785),
    "object keys in a fixed lexicographic order, no insignificant
    whitespace, stable numeric formatting".  The members of an object are
    serialised in the order [Object.keys(object).sort()] gives; names are
    compared here byte by byte, on their UTF-8 encoding. *)
Fixpoint insert_member (m : string * string) (sorted : list (string * string))
  : list (string * string) :=
  match sorted with
  | [] => [m]
  | x :: rest => if String.leb (fst m) (fst x) then m :: sorted
                 else x :: insert_member m rest
  end.

Definition sort_members (members : list (string * string)) : list (string * string) :=
  fold_right insert_member [] members.

Fixpoint canonicalize (v : json number) : string :=
  match v with
  | JNull => "null"
  | JBool true => "true"
  | JBool false => "false"
  | JNumber n => number_toString n
  | JString s => string_toJSON s
  | JArray elements => "[" ++ String.concat "," (map canonicalize elements) ++ "]"
  | JObject members =>
      "{" ++ String.concat ","
               (map (fun m => string_toJSON (fst m) ++ ":" ++ snd m)
                  (sort_members (map (fun '(k, x) => (k, canonicalize x)) members)))
          ++ "}"
  end.

(** [static digest(payload)] *)
Definition digest (payload : json number) : list byte :=
  let canonicalized := canonicalize payload in
  let canonicalizedBytes := list_byte_of_string canonicalized in
  sha256 W canonicalizedBytes.

(** [v || ''] *)
Definition or_empty (v : option string) : string :=
  match v with
  | Some s => if JsString.is_empty s then "" else s
  | None => ""
  end.

(** [static async sign(opts)] *)
Definition sign (opts : SignOptions) : M number CryptoKey string :=
  let privateKeyJwk := privateKeyJwk opts in
  let kid := kid opts in
  let payload := payload opts in
  let detached := detached opts in
  let algorithmName := or_empty (jwk_alg privateKeyJwk) in
  let namedCurve := or_empty (jwk_crv privateKeyJwk) in
  let algorithmId := algorithmName ++ ":" ++ namedCurve in
  match own_property algorithmId algorithms with
  | None => throw (UnsupportedAlgorithm algorithmId)
  | Some algorithm =>
      let jwsHeader := JObject [("alg", JString (alg algorithm)); ("kid", JString kid)] in
      let base64UrlEncodedJwsHeader := object_toBase64Url W jwsHeader in
      let base64urlEncodedJwsPayload := uint8Array_toBase64Url W payload in
      key <- await (KeyConversion privateKeyJwk)
               (jwkToCryptoKey W privateKeyJwk) KeyConversionFailure ;;
      let toSign := base64UrlEncodedJwsHeader ++ "." ++ base64urlEncodedJwsPayload in
      let toSignBytes := list_byte_of_string toSign in
      signatureBytes <- await (Signing key toSignBytes)
                          (signer_sign (signer algorithm) (options algorithm) key toSignBytes)
                          SigningFailure ;;
      let base64UrlEncodedSignature := uint8Array_toBase64Url W signatureBytes in
      if detached
      then ret (base64UrlEncodedJwsHeader ++ ".." ++ base64UrlEncodedSignature)
      else ret (base64UrlEncodedJwsHeader ++ "." ++ base64urlEncodedJwsPayload
                  ++ "." ++ base64UrlEncodedSignature)
  end.

(** [jwsHeader.name] on the value [JSON.parse] returned ([name] is not a
    property of the built-in prototypes): reading a property of [null]
    throws, a value that is not an object has no such property. *)
Definition property (v : json number) (name : string)
  : M number CryptoKey (option (json number)) :=
  match v with
  | JNull => throw TypeError
  | JObject members => ret (own_property name members)
  | _ => ret None
  end.

(** [{ ...publicKeyJwk, ext: 'true', key_ops: ['verify'] }] *)
Definition monkeyPatch (publicKeyJwk : Jwk) : Jwk := {|
  jwk_alg := jwk_alg publicKeyJwk;
  jwk_crv := jwk_crv publicKeyJwk;
  jwk_ext := Some "true";
  jwk_key_ops := Some ["verify"];
  jwk_members := jwk_members publicKeyJwk
|}.

(** [static async verify(opts)] *)
Definition verify (opts : VerifyOptions) : M number CryptoKey string :=
  let signature := signature opts in
  let detachedPayload := detachedPayload opts in
  if JsString.is_empty signature then throw MissingSignature else
  let splitJws := JsString.split "." signature in
  match splitJws with
  | [base64UrlEncodedJwsHeader; embeddedPayload; base64UrlEncodedSignature] =>
      base64urlEncodedJwsPayload <-
        match detachedPayload with
        | Some detachedPayload =>
            if negb (JsString.is_empty embeddedPayload)
            then throw MalformedSignature
            else ret (uint8Array_toBase64Url W detachedPayload)
        | None => ret embeddedPayload
        end ;;
      jwsHeader <- attempt (base64Url_toObject W base64UrlEncodedJwsHeader) ConvertFailure ;;
      header_alg <- property jwsHeader "alg" ;;
      header_kid <- property jwsHeader "kid" ;;
      if negb (truthy header_alg) || negb (truthy header_kid)
      then throw MalformedHeader else
      match header_kid with
      | None => throw MalformedHeader (* not reached: [undefined] is falsy *)
      | Some didUrl =>
          verificationMethod <- await (DidResolution didUrl)
                                  (deferenceDidUrl W didUrl) KeyResolutionFailure ;;
          if negb (isVerificationMethod verificationMethod)
          then throw UnresolvableKey else
          match publicKeyJwk verificationMethod with
          | None => throw UnresolvableKey
          | Some publicKeyJwk =>
              let signedData := base64UrlEncodedJwsHeader ++ "." ++ base64urlEncodedJwsPayload in
              let signedDataBytes := list_byte_of_string signedData in
              signatureBytes <- attempt (base64Url_toUint8Array W base64UrlEncodedSignature)
                                  ConvertFailure ;;
              let algorithmId := template header_alg ++ ":"
                                 ++ match jwk_crv publicKeyJwk with
                                    | Some c => c
                                    | None => "undefined"
                                    end in
              match own_property algorithmId algorithms with
              | None => throw TypeError
              | Some algorithm =>
                  let monkeyPatchPublicKeyJwk := monkeyPatch publicKeyJwk in
                  key <- await (KeyConversion monkeyPatchPublicKeyJwk)
                           (jwkToCryptoKey W monkeyPatchPublicKeyJwk) KeyConversionFailure ;;
                  isLegit <- await (Verifying key signedDataBytes signatureBytes)
                               (signer_verify (signer algorithm) (options algorithm)
                                  key signedDataBytes signatureBytes)
                               VerificationFailure ;;
                  if negb isLegit then throw IntegrityMismatch else
                  match didUrl with
                  | JString kid =>
                      match JsString.split "#" kid with
                      | did :: _ => ret did
                      | [] => ret "" (* not reached: [split] is never empty *)
                      end
                  | _ => throw TypeError
                  end
              end
          end
      end
  | _ => throw MalformedSignature
  end.

End Crypto.
End Crypto.

(** ** The [submitClose] request handler

    [Message.parse] and [message.isClose()] of [@tbdex/protocol], the
    callback and the Express response are collaborators.  A run of the
    handler is the list of what it did, in order: the invocation of the
    callback, the calls the callback made on the response it was handed, and
    the calls the handler itself made on the response. *)

(** [ErrorDetail] *)
Record ErrorDetail : Type := { detail : string }.

(** The calls made on [res]: [res.status(code)], [.json({ errors })] and
    [res.sendStatus(code)]. *)
Inductive ResponseCall : Type :=
| res_status (code : nat)
| res_json (errors : list ErrorDetail)
| res_sendStatus (code : nat).

Section SubmitClose.

Variables Request Body Message CallbackResult ExchangesApi : Type.

(** [req.body], [await Message.parse(body)] (the message of the error it
    throws on the right), [message.isClose()]. *)
Variable body : Request -> Body.
Variable Message_parse : Body -> Message + string.
Variable isClose : Message -> bool.

(** What a call of the callback does: the calls it makes on the response,
    and its result, [None] when it throws. *)
Definition SubmitCallback : Type :=
  Request -> Message -> list ResponseCall * option CallbackResult.

(** [SubmitCloseOpts] *)
Record SubmitCloseOpts : Type := {
  callback : option SubmitCallback;
  exchangesApi : ExchangesApi
}.

Inductive HandlerEvent : Type :=
| Invoked (message : Message)
| InCallback (call : ResponseCall)
| Responded (call : ResponseCall).

(** [submitClose(opts)], applied to a request. *)
Definition submitClose (opts : SubmitCloseOpts) (req : Request) : list HandlerEvent :=
  let callback := callback opts in
  match Message_parse (body req) with
  | inr e_message =>
      let errorResponse := {| detail := e_message |} in
      [Responded (res_status 400); Responded (res_json [errorResponse])]
  | inl message =>
      if negb (isClose message) then
        let errorResponse := {| detail := "expected request body to be a valid close" |} in
        [Responded (res_status 400); Responded (res_json [errorResponse])]
      else
        match callback with
        | None => [Responded (res_sendStatus 202)]
        | Some callback =>
            let (made, _result) := callback req message in
            Invoked message :: map InCallback made
              ++ match _result with
                 | Some _ => [Responded (res_sendStatus 202)]
                 | None => []
                 end
        end
  end.

(** The calls the handler itself made on the response. *)
Definition own_calls (run : list HandlerEvent) : list ResponseCall :=
  flat_map (fun ev => match ev with Responded call => [call] | _ => [] end) run.

(** The messages the callback was invoked with. *)
Definition invocations (run : list HandlerEvent) : list Message :=
  flat_map (fun ev => match ev with Invoked message => [message] | _ => [] end) run.

End SubmitClose.

(** ** Test doubles

    An instance of the collaborators on which the functions above can be
    run: the real base64url alphabet without padding (RFC 4648, section 5)
    with a strict decoder, compact JSON text for a subset of JSON (no white
    space, no escape sequences in the input, integer numbers), a resolver
    for one fixed DID document, stand-ins for the two signature algorithms
    whose signature is the algorithm tag, the key and the signed data, and
    the identity as a stand-in for the hash. *)

Module Double.

Local Open Scope string_scope.

Definition quote : ascii := "034"%char.
Definition backslash : ascii := "092"%char.

(** *** Numbers and string literals *)

Fixpoint escape (s : string) : string :=
  match s with
  | EmptyString => EmptyString
  | String c rest =>
      if Ascii.eqb c quote || Ascii.eqb c backslash
      then String backslash (String c (escape rest))
      else String c (escape rest)
  end.

#[export] Instance primitives : JsPrimitives Z := {|
  number_toString := fun n => NilZero.string_of_int (Z.to_int n);
  number_toBoolean := fun n => negb (Z.eqb n 0);
  string_toJSON := fun s => String quote (escape s ++ String quote EmptyString)
|}.

(** *** [JSON.stringify] and [JSON.parse] *)

Fixpoint stringify (v : json Z) : string :=
  match v with
  | JNull => "null"
  | JBool true => "true"
  | JBool false => "false"
  | JNumber n => number_toString n
  | JString s => string_toJSON s
  | JArray elements => "[" ++ String.concat "," (map stringify elements) ++ "]"
  | JObject members =>
      "{" ++ String.concat ","
               (map (fun '(k, x) => string_toJSON k ++ ":" ++ stringify x) members)
          ++ "}"
  end.

(** The characters up to the closing quote, and what follows it. *)
Fixpoint parse_chars (s : string) : option (string * string) :=
  match s with
  | EmptyString => None
  | String c rest =>
      if Ascii.eqb c quote then Some (EmptyString, rest)
      else if Ascii.eqb c backslash then None
      else match parse_chars rest with
           | Some (chars, rest') => Some (String c chars, rest')
           | None => None
           end
  end.

Definition is_digit (c : ascii) : bool :=
  (48 <=? nat_of_ascii c)%nat && (nat_of_ascii c <=? 57)%nat.

Fixpoint parse_digits (acc : Z) (s : string) : Z * string :=
  match s with
  | String c rest =>
      if is_digit c
      then parse_digits (10 * acc + Z.of_nat (nat_of_ascii c - 48)) rest
      else (acc, s)
  | EmptyString => (acc, s)
  end.

(** What follows the prefix [p] of [s]. *)
Fixpoint strip (p s : string) : option string :=
  match p, s with
  | EmptyString, _ => Some s
  | String a p', String b s' => if Ascii.eqb a b then strip p' s' else None
  | String _ _, EmptyString => None
  end.

Definition starts_with_digit (s : string) : bool :=
  match s with
  | String c _ => is_digit c
  | EmptyString => false
  end.

Fixpoint parse_value (fuel : nat) (s : string) : option (json Z * string) :=
  match fuel with
  | 0 => None
  | S fuel =>
      let elements :=
        fix elements (n : nat) (s : string) (acc : list (json Z)) :=
          match n with
          | 0 => None
          | S n =>
              match parse_value fuel s with
              | Some (x, rest) =>
                  match strip "," rest, strip "]" rest with
                  | Some rest', _ => elements n rest' (x :: acc)
                  | None, Some rest' => Some (JArray (rev (x :: acc)), rest')
                  | None, None => None
                  end
              | None => None
              end
          end in
      let members :=
        fix members (n : nat) (s : string) (acc : list (string * json Z)) :=
          match n with
          | 0 => None
          | S n =>
              match strip (String quote EmptyString) s with
              | Some s1 =>
                  match parse_chars s1 with
                  | Some (k, s2) =>
                      match strip ":" s2 with
                      | Some s3 =>
                          match parse_value fuel s3 with
                          | Some (x, rest) =>
                              match strip "," rest, strip "}" rest with
                              | Some rest', _ => members n rest' ((k, x) :: acc)
                              | None, Some rest' =>
                                  Some (JObject (rev ((k, x) :: acc)), rest')
                              | None, None => None
                              end
                          | None => None
                          end
                      | None => None
                      end
                  | None => None
                  end
              | None => None
              end
          end in
      match strip "null" s, strip "true" s, strip "false" s with
      | Some rest, _, _ => Some (JNull, rest)
      | _, Some rest, _ => Some (JBool true, rest)
      | _, _, Some rest => Some (JBool false, rest)
      | None, None, None =>
      match strip "[]" s, strip "[" s, strip "{}" s, strip "{" s with
      | Some rest, _, _, _ => Some (JArray [], rest)
      | _, Some rest, _, _ => elements (String.length s) rest []
      | _, _, Some rest, _ => Some (JObject [], rest)
      | _, _, _, Some rest => members (String.length s) rest []
      | None, None, None, None =>
      match strip (String quote EmptyString) s, strip "-" s with
      | Some rest, _ =>
          match parse_chars rest with
          | Some (chars, rest') => Some (JString chars, rest')
          | None => None
          end
      | _, Some rest =>
          if starts_with_digit rest
          then let (n, rest') := parse_digits 0 rest in Some (JNumber (- n)%Z, rest')
          else None
      | None, None =>
          if starts_with_digit s
          then let (n, rest') := parse_digits 0 s in Some (JNumber n, rest')
          else None
      end end end
  end.

Definition parse (s : string) : option (json Z) :=
  match parse_value (S (String.length s)) s with
  | Some (v, EmptyString) => Some v
  | _ => None
  end.

(** *** base64url without padding *)

Definition alphabet : string :=
  "ABCDEFGHIJKLMNOPQRSTUVWXYZabcdefghijklmnopqrstuvwxyz0123456789-_".

Definition sextet_char (n : N) : ascii :=
  match String.get (N.to_nat n) alphabet with
  | Some c => c
  | None => "="%char
  end.

Definition char_sextet (c : ascii) : option N :=
  let n := N_of_ascii c in
  if (65 <=? n)%N && (n <=? 90)%N then Some (n - 65)%N
  else if (97 <=? n)%N && (n <=? 122)%N then Some (n - 71)%N
  else if (48 <=? n)%N && (n <=? 57)%N then Some (n + 4)%N
  else if (n =? 45)%N then Some 62%N
  else if (n =? 95)%N then Some 63%N
  else None.

Fixpoint base64url_encode (bytes : list byte) : string :=
  match bytes with
  | [] => EmptyString
  | [a] =>
      let n := Byte.to_N a in
      String (sextet_char (n / 4)) (String (sextet_char (n mod 4 * 16)) EmptyString)
  | [a; b] =>
      let n := (Byte.to_N a * 256 + Byte.to_N b)%N in
      String (sextet_char (n / 1024))
        (String (sextet_char (n / 16 mod 64))
           (String (sextet_char (n mod 16 * 4)) EmptyString))
  | a :: b :: c :: rest =>
      let n := (Byte.to_N a * 65536 + Byte.to_N b * 256 + Byte.to_N c)%N in
      String (sextet_char (n / 262144))
        (String (sextet_char (n / 4096 mod 64))
           (String (sextet_char (n / 64 mod 64))
              (String (sextet_char (n mod 64)) (base64url_encode rest))))
  end.

Definition byte_of (n : N) : byte :=
  match Byte.of_N (n mod 256) with
  | Some b => b
  | None => x00
  end.

(** Decoding that ignores the bits a final partial group leaves over. *)
Fixpoint base64url_decode_lenient (s : string) : option (list byte) :=
  match s with
  | EmptyString => Some []
  | String c1 (String c2 EmptyString) =>
      match char_sextet c1, char_sextet c2 with
      | Some n1, Some n2 => Some [byte_of (n1 * 4 + n2 / 16)]
      | _, _ => None
      end
  | String c1 (String c2 (String c3 EmptyString)) =>
      match char_sextet c1, char_sextet c2, char_sextet c3 with
      | Some n1, Some n2, Some n3 =>
          let n := (n1 * 4096 + n2 * 64 + n3)%N in
          Some [byte_of (n / 1024); byte_of (n / 4)]
      | _, _, _ => None
      end
  | String c1 (String c2 (String c3 (String c4 rest))) =>
      match char_sextet c1, char_sextet c2, char_sextet c3, char_sextet c4,
            base64url_decode_lenient rest with
      | Some n1, Some n2, Some n3, Some n4, Some bytes =>
          let n := (n1 * 262144 + n2 * 4096 + n3 * 64 + n4)%N in
          Some (byte_of (n / 65536) :: byte_of (n / 256) :: byte_of n :: bytes)
      | _, _, _, _, _ => None
      end
  | String _ EmptyString => None
  end.

(** Strict decoding: the text has to be the encoding of what it decodes to. *)
Definition base64url_decode (s : string) : option (list byte) :=
  match base64url_decode_lenient s with
  | Some bytes => if String.eqb (base64url_encode bytes) s then Some bytes else None
  | None => None
  end.

(** *** Signature algorithms and keys *)

(** A key handle is one byte: the first character of the [x] member. *)
Definition import_key (key : Jwk) : option byte :=
  match own_property "x" (jwk_members key) with
  | Some (String c _) => Some (byte_of_ascii c)
  | _ => None
  end.

Definition tagged (tag : byte) : CryptoAlgorithm byte := {|
  signer_sign := fun _ key data => Some (tag :: key :: data);
  signer_verify := fun _ key data signature =>
    Some (if list_eq_dec Byte.byte_eq_dec signature (tag :: key :: data)
          then true else false)
|}.

(** *** The DID document of [did:example:abc] *)

Definition ed25519Key : Jwk := {|
  jwk_alg := Some "EdDSA"; jwk_crv := Some "Ed25519";
  jwk_ext := None; jwk_key_ops := None;
  jwk_members := [("kty", "OKP"); ("x", "Kx5nV0"); ("d", "s3cr3t")]
|}.

Definition ed25519PublicKey : Jwk := {|
  jwk_alg := Some "EdDSA"; jwk_crv := Some "Ed25519";
  jwk_ext := None; jwk_key_ops := None;
  jwk_members := [("kty", "OKP"); ("x", "Kx5nV0")]
|}.

(** A private key that declares its curve only. *)
Definition secp256k1Key : Jwk := {|
  jwk_alg := None; jwk_crv := Some "secp256k1";
  jwk_ext := None; jwk_key_ops := None;
  jwk_members := [("kty", "EC"); ("x", "Qm9i"); ("y", "Ym9i"); ("d", "c2Vj")]
|}.

Definition secp256k1PublicKey : Jwk := {|
  jwk_alg := None; jwk_crv := Some "secp256k1";
  jwk_ext := None; jwk_key_ops := None;
  jwk_members := [("kty", "EC"); ("x", "Qm9i"); ("y", "Ym9i")]
|}.

Definition rsaKey : Jwk := {|
  jwk_alg := Some "RS256"; jwk_crv := None;
  jwk_ext := None; jwk_key_ops := None;
  jwk_members := [("kty", "RSA"); ("n", "AQAB"); ("e", "AQAB"); ("d", "AQAB")]
|}.

(** A fragment of [did:example:abc] that names no verification method
    resolves to something else; another DID fails to resolve, except
    [did:example:solo], which resolves without a fragment. *)
Definition resolve (didUrl : json Z) : option DidResource :=
  match didUrl with
  | JString url =>
      if String.eqb url "did:example:abc#key-1"
      then Some (VerificationMethod url "JsonWebKey2020" (Some ed25519PublicKey))
      else if String.eqb url "did:example:abc#key-2"
      then Some (VerificationMethod url "JsonWebKey2020" (Some secp256k1PublicKey))
      else if String.eqb url "did:example:abc#key-3"
      then Some (VerificationMethod url "JsonWebKey2020" None)
      else if String.eqb url "did:example:solo"
      then Some (VerificationMethod url "JsonWebKey2020" (Some ed25519PublicKey))
      else if String.prefix "did:example:abc" url
      then Some OtherResource
      else None
  | _ => None
  end.

Definition world : Collaborators Z byte := {|
  object_toBase64Url := fun o => base64url_encode (list_byte_of_string (stringify o));
  uint8Array_toBase64Url := base64url_encode;
  base64Url_toObject := fun s =>
    match base64url_decode s with
    | Some bytes => parse (string_of_list_byte bytes)
    | None => None
    end;
  base64Url_toUint8Array := base64url_decode;
  jwkToCryptoKey := import_key;
  EcdsaAlgorithm := tagged x01;
  EdDsaAlgorithm := tagged x02;
  deferenceDidUrl := resolve;
  sha256 := fun bytes => bytes
|}.

(** *** Signatures to verify *)

Definition returned (m : M Z byte string) : string :=
  match outcome m with
  | Returned jws => jws
  | Thrown _ => EmptyString
  end.

(** [ed25519Key] signs the bytes 1, 2, 3 as [did:example:abc#key-1]. *)
Definition jws_key_1 : string :=
  Eval vm_compute in
    returned (Crypto.sign world {| detached := false; payload := [x01; x02; x03];
                                   privateKeyJwk := ed25519Key;
                                   kid := "did:example:abc#key-1" |}).

(** [ed25519Key] signs the same bytes as [did:example:solo]. *)
Definition jws_solo : string :=
  Eval vm_compute in
    returned (Crypto.sign world {| detached := false; payload := [x01; x02; x03];
                                   privateKeyJwk := ed25519Key;
                                   kid := "did:example:solo" |}).

(** The header of [jws_key_1] with [did:example:abc#key-2] as [kid]: the
    header says [EdDSA], the key of [key-2] says [secp256k1]. *)
Definition jws_mismatch : string :=
  Eval vm_compute in
    (object_toBase64Url world
       (JObject [("alg", JString "EdDSA"); ("kid", JString "did:example:abc#key-2")])
     ++ ".AQID.AQID").

(** [jws_key_1] with its payload detached. *)
Definition jws_key_1_detached : string :=
  Eval vm_compute in
    returned (Crypto.sign world {| detached := true; payload := [x01; x02; x03];
                                   privateKeyJwk := ed25519Key;
                                   kid := "did:example:abc#key-1" |}).

Definition segments (jws : string) : string * string * string :=
  match JsString.split "." jws with
  | [h; p; s] => (h, p, s)
  | _ => (EmptyString, EmptyString, EmptyString)
  end.

Definition header_key_1 : string :=
  Eval vm_compute in fst (fst (segments jws_key_1)).

Definition signature_key_1 : string :=
  Eval vm_compute in snd (segments jws_key_1).

End Double.

(** ** Further test doubles *)

Module Cases.

Import Double.
Local Open Scope string_scope.

(** Signatures that fail after the header check: a [kid] of an unknown DID,
    a [kid] that names a service, a [kid] that names a verification method
    without key, a signature segment and a header segment outside the
    base64url alphabet, and [jws_key_1] with another payload. *)
Definition jws_unknown_did : string :=
  Eval vm_compute in
    (object_toBase64Url world
       (JObject [("alg", JString "EdDSA"); ("kid", JString "did:web:nowhere#key-1")])
     ++ ".AQID.AQID").

Definition jws_service : string :=
  Eval vm_compute in
    (object_toBase64Url world
       (JObject [("alg", JString "EdDSA"); ("kid", JString "did:example:abc#service-1")])
     ++ ".AQID.AQID").

Definition jws_key_3 : string :=
  Eval vm_compute in
    (object_toBase64Url world
       (JObject [("alg", JString "EdDSA"); ("kid", JString "did:example:abc#key-3")])
     ++ ".AQID.AQID").

Definition jws_bad_signature : string :=
  Eval vm_compute in (header_key_1 ++ ".AQID.!!!").

Definition jws_bad_header : string := "!!!.AQID.AQID".

Definition jws_other_payload : string :=
  Eval vm_compute in (header_key_1 ++ ".AQIE." ++ signature_key_1).

(** An Ed25519 key without the member the key conversion reads. *)
Definition ed25519KeyWithoutX : Jwk := {|
  jwk_alg := Some "EdDSA"; jwk_crv := Some "Ed25519";
  jwk_ext := None; jwk_key_ops := None;
  jwk_members := [("kty", "OKP"); ("d", "s3cr3t")]
|}.

(** Collaborators whose EdDSA algorithm throws. *)
Definition throwing : CryptoAlgorithm byte := {|
  signer_sign := fun _ _ _ => None;
  signer_verify := fun _ _ _ _ => None
|}.

Definition faulty_world : Collaborators Z byte := {|
  object_toBase64Url := object_toBase64Url world;
  uint8Array_toBase64Url := uint8Array_toBase64Url world;
  base64Url_toObject := base64Url_toObject world;
  base64Url_toUint8Array := base64Url_toUint8Array world;
  jwkToCryptoKey := jwkToCryptoKey world;
  EcdsaAlgorithm := EcdsaAlgorithm world;
  EdDsaAlgorithm := throwing;
  deferenceDidUrl := deferenceDidUrl world;
  sha256 := sha256 world
|}.

(** A private key that declares its algorithm only (registry key
    [ES256K:]), and its public half. *)
Definition es256kKey : Jwk := {|
  jwk_alg := Some "ES256K"; jwk_crv := None;
  jwk_ext := None; jwk_key_ops := None;
  jwk_members := [("kty", "EC"); ("x", "Qm9i"); ("y", "Ym9i"); ("d", "c2Vj")]
|}.

Definition es256kPublicKey : Jwk := {|
  jwk_alg := Some "ES256K"; jwk_crv := None;
  jwk_ext := None; jwk_key_ops := None;
  jwk_members := [("kty", "EC"); ("x", "Qm9i"); ("y", "Ym9i")]
|}.

(** Collaborators whose resolver also knows [did:example:k], the DID
    document of which publishes [es256kPublicKey] as [key-1]. *)
Definition resolve_es256k (didUrl : json Z) : option DidResource :=
  match didUrl with
  | JString url =>
      if String.eqb url "did:example:k#key-1"
      then Some (VerificationMethod url "JsonWebKey2020" (Some es256kPublicKey))
      else resolve didUrl
  | _ => resolve didUrl
  end.

Definition es256k_world : Collaborators Z byte := {|
  object_toBase64Url := object_toBase64Url world;
  uint8Array_toBase64Url := uint8Array_toBase64Url world;
  base64Url_toObject := base64Url_toObject world;
  base64Url_toUint8Array := base64Url_toUint8Array world;
  jwkToCryptoKey := jwkToCryptoKey world;
  EcdsaAlgorithm := EcdsaAlgorithm world;
  EdDsaAlgorithm := EdDsaAlgorithm world;
  deferenceDidUrl := resolve_es256k;
  sha256 := sha256 world
|}.

(** What [es256kKey] signs for the bytes 1, 2, 3 as [did:example:k#key-1],
    attached and detached. *)
Definition jws_es256k : string :=
  Eval vm_compute in
    returned (Crypto.sign es256k_world
                {| detached := false; payload := [x01; x02; x03];
                   privateKeyJwk := es256kKey; kid := "did:example:k#key-1" |}).

Definition jws_es256k_detached : string :=
  Eval vm_compute in
    returned (Crypto.sign es256k_world
                {| detached := true; payload := [x01; x02; x03];
                   privateKeyJwk := es256kKey; kid := "did:example:k#key-1" |}).

End Cases.

(** ** Vocabulary of the statements *)

Section Vocabulary.

Context {number CryptoKey : Type} `{JsPrimitives number}.
Variable W : Collaborators number CryptoKey.

Import JsString.
Local Open Scope string_scope.

(** The properties of the registry object. *)
Definition registry_keys : list string :=
  ["ES256K:"; "ES256K:secp256k1"; ":secp256k1"; "EdDSA:Ed25519"].

(** The members of the decoded header, as the specification reads them:
    a header that is not an object has none. *)
Definition header_member (name : string) (header : json number) : option (json number) :=
  match header with
  | JObject members => own_property name members
  | _ => None
  end.

(** C7 as stated: a three-segment signature whose decoded header lacks a
    non-empty [alg] or [kid] (the member is absent, or is the empty string
    or another falsy value) fails with [MalformedHeader] before any
    collaborator is called. *)
Definition malformed_header_rejected (opts : VerifyOptions) : Prop :=
  forall h p s header,
    split "." (signature opts) = [h; p; s] ->
    base64Url_toObject W h = Some header ->
    truthy (header_member "alg" header) = false
    \/ truthy (header_member "kid" header) = false ->
    Crypto.verify W opts = ([], Thrown MalformedHeader).

(** The data on which a run asked a signature algorithm to verify. *)
Definition verified_data (events : list (Event number CryptoKey)) : list (list byte) :=
  flat_map (fun ev => match ev with
                      | Verifying _ data _ => [data]
                      | _ => []
                      end) events.

(** [data] is the only data the run [m] submitted for verification. *)
Definition verifies_only {A : Type} (data : list byte) (m : M number CryptoKey A) : Prop :=
  forall data', In data' (verified_data (calls m)) -> data' = data.

(** The payload segment the signed data is rebuilt from, when the
    detached-payload check passes. *)
Definition effective_payload (detachedPayload : option (list byte)) (embedded : string)
  : option string :=
  match detachedPayload with
  | Some d => if is_empty embedded then Some (uint8Array_toBase64Url W d) else None
  | None => Some embedded
  end.

(** [`${publicKeyJwk['crv']}`] *)
Definition curve_label (key : Jwk) : string :=
  match jwk_crv key with
  | Some c => c
  | None => "undefined"
  end.

(** Every check up to and including the DID resolution passes: the
    signature has three segments, the detached-payload check leaves [p']
    as the effective payload segment, the header carries [header_alg] and
    the string [kid], and [kid] dereferences to a verification method that
    exposes the public key [key]. *)
Record key_resolved (opts : VerifyOptions) (h p' s : string)
  (header_alg : json number) (kid : string) (key : Jwk) : Prop := {
  resolved_split : exists p, split "." (signature opts) = [h; p; s]
                             /\ effective_payload (detachedPayload opts) p = Some p';
  resolved_header : exists header,
      base64Url_toObject W h = Some header
      /\ header_member "alg" header = Some header_alg
      /\ header_member "kid" header = Some (JString kid);
  resolved_alg : truthy (Some header_alg) = true;
  resolved_kid : kid <> "";
  resolved_method : exists id type,
      deferenceDidUrl W (JString kid) = Some (VerificationMethod id type (Some key))
}.

(** [sign]'s registry key: the private key's own [alg] and [crv], the
    empty string standing for a missing one. *)
Definition declared_pair (key : Jwk) : string :=
  match jwk_alg key with Some a => a | None => "" end
  ++ ":"
  ++ match jwk_crv key with Some c => c | None => "" end.

(** The protected header [sign] builds. *)
Definition protected_header (algorithm : SignerValue CryptoKey) (kid : string)
  : json number :=
  JObject [("alg", JString (alg algorithm)); ("kid", JString kid)].

(** What [sign] submits to the signature algorithm. *)
Definition signing_input (algorithm : SignerValue CryptoKey) (kid : string)
  (payload : list byte) : list byte :=
  list_byte_of_string
    (object_toBase64Url W (protected_header algorithm kid)
     ++ "." ++ uint8Array_toBase64Url W payload).

(** [Convert] gives back the header and the signature it encoded, and
    the three segments it produced are free of ['.']. *)
Record converts_back (header : json number) (payload signatureBytes : list byte)
  : Prop := {
  header_back : base64Url_toObject W (object_toBase64Url W header) = Some header;
  signature_back : base64Url_toUint8Array W (uint8Array_toBase64Url W signatureBytes)
                   = Some signatureBytes;
  header_dot_free : includes "." (object_toBase64Url W header) = false;
  payload_dot_free : includes "." (uint8Array_toBase64Url W payload) = false;
  signature_dot_free : includes "." (uint8Array_toBase64Url W signatureBytes) = false
}.

(** The DID document publishes, under [kid], a public key that declares
    the curve of [algorithm] and that verifies what [signingKey] signs. *)
Record published_key (algorithm : SignerValue CryptoKey) (kid : string)
  (signingKey : CryptoKey) (publicKey : Jwk) (verificationKey : CryptoKey) : Prop := {
  published : exists id type,
      deferenceDidUrl W (JString kid) = Some (VerificationMethod id type (Some publicKey));
  published_curve : jwk_crv publicKey = Some (crv algorithm);
  published_handle : jwkToCryptoKey W (Crypto.monkeyPatch publicKey) = Some verificationKey;
  published_verifies : forall data signatureBytes,
      signer_sign (signer algorithm) (options algorithm) signingKey data
      = Some signatureBytes ->
      signer_verify (signer algorithm) (options algorithm) verificationKey data
        signatureBytes = Some true
}.

(** C1 and C5 as stated, for the attached and for the detached form: the
    private key's declared pair is a key of the registry and every
    collaborator does its part (the private key converts, the algorithm
    signs, the resolver publishes under [kid] a public key that converts
    and that verifies what the private key signs, [Convert] decodes what
    it encoded); then [verify] accepts what [sign] returns and returns the
    part of [kid] before the first ['#']. *)
Definition round_trip_as_stated (isDetached : bool) : Prop :=
  forall (privateKey publicKey : Jwk) (keyId : string)
         (message signatureBytes : list byte) (algorithm : SignerValue CryptoKey)
         (signingKey verificationKey : CryptoKey),
    own_property (declared_pair privateKey) (Crypto.algorithms W) = Some algorithm ->
    keyId <> "" ->
    jwkToCryptoKey W privateKey = Some signingKey ->
    signer_sign (signer algorithm) (options algorithm) signingKey
      (signing_input algorithm keyId message) = Some signatureBytes ->
    (exists id type,
        deferenceDidUrl W (JString keyId)
        = Some (VerificationMethod id type (Some publicKey))) ->
    jwkToCryptoKey W (Crypto.monkeyPatch publicKey) = Some verificationKey ->
    (forall data signed,
        signer_sign (signer algorithm) (options algorithm) signingKey data
        = Some signed ->
        signer_verify (signer algorithm) (options algorithm) verificationKey data
          signed = Some true) ->
    converts_back (protected_header algorithm keyId) message signatureBytes ->
    exists jws,
      outcome (Crypto.sign W {| detached := isDetached; payload := message;
                                privateKeyJwk := privateKey; kid := keyId |})
      = Returned jws
      /\ outcome (Crypto.verify W
                    {| detachedPayload := if isDetached then Some message else None;
                       signature := jws |})
         = Returned (before_first "#" keyId).

(** [Convert] gives back the payload it encoded. *)
Definition payload_back (payload : list byte) : Prop :=
  base64Url_toUint8Array W (uint8Array_toBase64Url W payload) = Some payload.

(** The signature algorithm accepts [signatureBytes] under
    [verificationKey] for [data] only. *)
Definition rejects_other_data (algorithm : SignerValue CryptoKey)
  (verificationKey : CryptoKey) (data signatureBytes : list byte) : Prop :=
  forall data', data' <> data ->
    signer_verify (signer algorithm) (options algorithm) verificationKey data'
      signatureBytes = Some false.

(** The compact form, and a run of [verify] on another signature with
    the same [detachedPayload]. *)
Definition compact (h p s : string) : string := h ++ "." ++ p ++ "." ++ s.

Definition verify_mutated (opts : VerifyOptions) (sig : string) : Outcome string :=
  outcome (Crypto.verify W {| detachedPayload := detachedPayload opts;
                              signature := sig |}).

(** C9 as stated, in its weakest reading: after the flip of one bit of a
    segment of an accepted signature, [verify] fails with one of
    [MalformedHeader], [IntegrityMismatch], [MalformedSignature]. *)
Definition fails_as_stated (o : Outcome string) : Prop :=
  o = Thrown MalformedHeader \/ o = Thrown IntegrityMismatch
  \/ o = Thrown MalformedSignature.

Definition mutation_fails_as_stated (opts : VerifyOptions) : Prop :=
  forall h p s did i n,
    split "." (signature opts) = [h; p; s] ->
    outcome (Crypto.verify W opts) = Returned did ->
    (i < String.length h ->
     fails_as_stated (verify_mutated opts (compact (flip_at i n h) p s)))
    /\ (i < String.length p ->
        fails_as_stated (verify_mutated opts (compact h (flip_at i n p) s)))
    /\ (i < String.length s ->
        fails_as_stated (verify_mutated opts (compact h p (flip_at i n s)))).

(** What makes tampering evident, and is not in the hands of [verify]:
    the algorithms of the registry accept a signature for one signed data
    only, whatever the key; they accept one signature only for given data
    and key; whether they answer or throw does not depend on the data; and
    [Convert] decodes two different strings to different bytes. *)
Record tamper_evident : Prop := {
  one_data : forall id id' a a' k k' data data' sg,
      own_property id (Crypto.algorithms W) = Some a ->
      own_property id' (Crypto.algorithms W) = Some a' ->
      signer_verify (signer a) (options a) k data sg = Some true ->
      signer_verify (signer a') (options a') k' data' sg = Some true ->
      data' = data;
  one_signature : forall id a k data sg sg',
      own_property id (Crypto.algorithms W) = Some a ->
      signer_verify (signer a) (options a) k data sg = Some true ->
      signer_verify (signer a) (options a) k data sg' = Some true ->
      sg' = sg;
  answers : forall id a k data data' sg,
      own_property id (Crypto.algorithms W) = Some a ->
      signer_verify (signer a) (options a) k data sg <> None ->
      signer_verify (signer a) (options a) k data' sg <> None;
  one_encoding : forall x y bytes,
      base64Url_toUint8Array W x = Some bytes ->
      base64Url_toUint8Array W y = Some bytes ->
      x = y
}.

End Vocabulary.

(** ** Vocabulary of further statements *)

Section Discipline.

Context {number CryptoKey : Type} `{JsPrimitives number}.
Variable W : Collaborators number CryptoKey.

Import JsString.
Local Open Scope string_scope.

(** The header check passes: three segments, [p'] as effective payload
    segment, a header whose [alg] and [kid] are both truthy. *)
Record header_accepted (opts : VerifyOptions) (h p' s : string)
  (header_alg didUrl : json number) : Prop := {
  accepted_split : exists p, split "." (signature opts) = [h; p; s]
                             /\ effective_payload W (detachedPayload opts) p = Some p';
  accepted_header : exists header,
      base64Url_toObject W h = Some header
      /\ header_member "alg" header = Some header_alg
      /\ header_member "kid" header = Some didUrl;
  accepted_alg : truthy (Some header_alg) = true;
  accepted_kid : truthy (Some didUrl) = true
}.

(** Every call of the run [m] satisfies [P]. *)
Definition every_call {A : Type} (P : Event number CryptoKey -> Prop)
  (m : M number CryptoKey A) : Prop :=
  Forall P (calls m).

(** The run [m] makes at most [n] calls. *)
Definition calls_at_most {A : Type} (n : nat) (m : M number CryptoKey A) : Prop :=
  List.length (calls m) <= n.

(** What [verify] may call: the resolver, the key conversion on a key
    marked for verification, the verification of a signature. *)
Definition verifier_call (ev : Event number CryptoKey) : Prop :=
  match ev with
  | DidResolution _ => True
  | KeyConversion key => jwk_ext key = Some "true" /\ jwk_key_ops key = Some ["verify"]
  | Verifying _ _ _ => True
  | Signing _ _ => False
  end.

(** What [sign] may call: the key conversion on the caller's private key,
    as it was handed over, and the signing. *)
Definition signer_call (opts : SignOptions) (ev : Event number CryptoKey) : Prop :=
  match ev with
  | KeyConversion key => key = privateKeyJwk opts
  | Signing _ _ => True
  | DidResolution _ => False
  | Verifying _ _ _ => False
  end.

End Discipline.

(** * Properties *)

(** ** Splitting and joining *)

Section SplitFacts.

Import JsString.
Local Open Scope string_scope.

Variable sep : ascii.

Lemma split_not_nil (s : string) : split sep s <> [].
Proof.
  destruct s as [|c rest]; simpl; [discriminate|].
  destruct (Ascii.eqb c sep); [discriminate|].
  destruct (split sep rest); discriminate.
Qed.

Lemma split_without_separator (s : string) :
  includes sep s = false -> split sep s = [s].
Proof.
  induction s as [|c rest IH]; simpl; intros Hs; [reflexivity|].
  apply orb_false_elim in Hs as [Hc Hrest].
  rewrite Hc, (IH Hrest). reflexivity.
Qed.

Lemma split_append (x rest : string) :
  includes sep x = false ->
  split sep (x ++ String sep rest) = x :: split sep rest.
Proof.
  induction x as [|c x IH]; simpl; intros Hx.
  - rewrite Ascii.eqb_refl. reflexivity.
  - apply orb_false_elim in Hx as [Hc Hx].
    rewrite Hc, (IH Hx). reflexivity.
Qed.

Lemma split_parts_without_separator (s : string) :
  Forall (fun part => includes sep part = false) (split sep s).
Proof.
  induction s as [|c rest IH]; simpl.
  - repeat constructor.
  - destruct (Ascii.eqb c sep) eqn:Hc.
    + constructor; [reflexivity | exact IH].
    + destruct (split sep rest) as [|first others].
      * repeat constructor. simpl. rewrite Hc. reflexivity.
      * inversion IH; subst.
        constructor; [simpl | assumption].
        rewrite Hc. assumption.
Qed.

Lemma join_split (s : string) : join sep (split sep s) = s.
Proof.
  unfold join. induction s as [|c rest IH]; simpl; [reflexivity|].
  destruct (Ascii.eqb_spec c sep) as [->|Hc].
  - pose proof (split_not_nil rest) as Hnil.
    destruct (split sep rest) as [|first others]; [contradiction|].
    simpl in *. rewrite IH. reflexivity.
  - pose proof (split_not_nil rest) as Hnil.
    destruct (split sep rest) as [|first others]; [contradiction|].
    simpl in *. destruct others; simpl in *; rewrite <- IH; reflexivity.
Qed.

Lemma split_first_is_before_first (s : string) :
  exists others, split sep s = before_first sep s :: others.
Proof.
  induction s as [|c rest [others IH]]; simpl.
  - exists []. reflexivity.
  - destruct (Ascii.eqb c sep).
    + eexists. reflexivity.
    + rewrite IH. eexists. reflexivity.
Qed.

Lemma before_first_without_separator (s : string) :
  includes sep s = false -> before_first sep s = s.
Proof.
  induction s as [|c rest IH]; simpl; intros Hs; [reflexivity|].
  apply orb_false_elim in Hs as [Hc Hrest].
  rewrite Hc, (IH Hrest). reflexivity.
Qed.

End SplitFacts.

Section ThreeSegments.

Import JsString.
Local Open Scope string_scope.

Lemma split_three (h p s : string) :
  includes "." h = false -> includes "." p = false -> includes "." s = false ->
  split "." (h ++ "." ++ p ++ "." ++ s) = [h; p; s].
Proof.
  intros Hh Hp Hs. simpl.
  rewrite !split_append by assumption.
  rewrite split_without_separator by assumption. reflexivity.
Qed.

Lemma split_three_inv (sig h p s : string) :
  split "." sig = [h; p; s] ->
  sig = h ++ "." ++ p ++ "." ++ s
  /\ includes "." h = false /\ includes "." p = false /\ includes "." s = false.
Proof.
  intros Hsplit. split.
  - rewrite <- (join_split "." sig), Hsplit. reflexivity.
  - pose proof (split_parts_without_separator "." sig) as Hparts.
    rewrite Hsplit in Hparts.
    inversion Hparts as [|? ? H1 Hparts1]; subst.
    inversion Hparts1 as [|? ? H2 Hparts2]; subst.
    inversion Hparts2 as [|? ? H3 _]; subst. auto.
Qed.

Lemma three_segments_not_empty (h rest : string) :
  is_empty (h ++ "." ++ rest) = false.
Proof. destruct h; reflexivity. Qed.

(** More than two separators: not three segments. *)
Lemma split_length_append (x y : string) :
  List.length (split "." (x ++ "." ++ y))
  = List.length (split "." x) + List.length (split "." y).
Proof.
  induction x as [|c x IH]; simpl; [reflexivity|].
  destruct (Ascii.eqb c "."); simpl.
  - simpl in IH. rewrite IH. reflexivity.
  - simpl in IH.
    pose proof (split_not_nil "." x) as Hx.
    destruct (split "." x) as [|a l] eqn:E; [contradiction|].
    destruct (split "." (x ++ String "." y)) as [|b l'] eqn:E';
      [exfalso; eapply split_not_nil; eassumption|].
    simpl in *. exact IH.
Qed.

Lemma split_length_includes (x : string) :
  includes "." x = true -> 2 <= List.length (split "." x).
Proof.
  induction x as [|c x IH]; simpl; [discriminate|].
  destruct (Ascii.eqb c ".") eqn:Hc; simpl.
  - intros _. pose proof (split_not_nil "." x).
    destruct (split "." x); [contradiction | simpl; lia].
  - intros Hx. specialize (IH Hx).
    destruct (split "." x); simpl in *; lia.
Qed.

End ThreeSegments.

(** ** The first steps of [verify] and of [sign] *)

Section EarlyFailures.

Context {number CryptoKey : Type} `{JsPrimitives number}.
Variable W : Collaborators number CryptoKey.

Import JsString.
Local Open Scope string_scope.

Lemma own_property_absent {V : Type} (name : string) (members : list (string * V)) :
  ~ In name (map fst members) <-> own_property name members = None.
Proof.
  induction members as [|[k v] rest IH]; simpl.
  - tauto.
  - destruct (String.eqb_spec k name) as [->|Hk].
    + split; [intros Hn; exfalso; apply Hn; now left | discriminate].
    + rewrite <- IH. tauto.
Qed.

Lemma or_empty_default (v : option string) :
  Crypto.or_empty v = match v with Some s => s | None => "" end.
Proof. destruct v as [[|c s]|]; reflexivity. Qed.

Lemma verify_not_three_segments (detachedPayload : option (list byte)) (sig : string) :
  sig <> "" -> List.length (split "." sig) <> 3 ->
  Crypto.verify W {| detachedPayload := detachedPayload; signature := sig |}
  = ([], Thrown MalformedSignature).
Proof.
  intros Hsig Hlen. unfold Crypto.verify. cbn [signature].
  destruct sig as [|c rest]; [contradiction|]. cbn [is_empty].
  destruct (split "." (String c rest)) as [|a [|b [|d [|e l]]]];
    try reflexivity.
  exfalso. apply Hlen. reflexivity.
Qed.

(** C4. [verify] of the empty string fails with [MissingSignature], and
    [verify] of a non-empty string that does not split on ['.'] into
    exactly three segments fails with [MalformedSignature]; in both cases
    no collaborator is called, so no DID is resolved. *)
Theorem verify_missing_or_malformed_signature
  (detachedPayload : option (list byte)) (sig : string) :
  (sig = "" ->
   Crypto.verify W {| detachedPayload := detachedPayload; signature := sig |}
   = ([], Thrown MissingSignature))
  /\ (sig <> "" -> List.length (split "." sig) <> 3 ->
      Crypto.verify W {| detachedPayload := detachedPayload; signature := sig |}
      = ([], Thrown MalformedSignature)).
Proof.
  split.
  - intros ->. reflexivity.
  - apply verify_not_three_segments.
Qed.

(** C3. [sign] looks the registry up under the private key's own [alg]
    and [crv], each replaced by the empty string when it is missing; when
    that key is not in the registry, [sign] fails with
    [UnsupportedAlgorithm] naming it, and no key conversion and no signing
    has been performed. *)
Theorem sign_unsupported_algorithm (opts : SignOptions) (algorithmId : string) :
  algorithmId = match jwk_alg (privateKeyJwk opts) with Some a => a | None => "" end
                ++ ":"
                ++ match jwk_crv (privateKeyJwk opts) with Some c => c | None => "" end ->
  ~ In algorithmId registry_keys ->
  Crypto.sign W opts = ([], Thrown (UnsupportedAlgorithm algorithmId)).
Proof.
  intros Hid Habsent. unfold Crypto.sign.
  rewrite !or_empty_default, <- Hid.
  change registry_keys with (map fst (Crypto.algorithms W)) in Habsent.
  apply own_property_absent in Habsent. rewrite Habsent. reflexivity.
Qed.

(** C7, amended. The header is examined after the detached-payload
    check: when no [detachedPayload] is supplied or the embedded payload
    segment is empty, and the decoded header is not [null], a header that
    lacks a non-empty [alg] or [kid] fails with [MalformedHeader] before
    any collaborator is called. *)
Theorem verify_malformed_header (opts : VerifyOptions) (h p s : string)
  (header : json number) :
  split "." (signature opts) = [h; p; s] ->
  detachedPayload opts = None \/ p = "" ->
  base64Url_toObject W h = Some header ->
  header <> JNull ->
  truthy (header_member "alg" header) = false
  \/ truthy (header_member "kid" header) = false ->
  Crypto.verify W opts = ([], Thrown MalformedHeader).
Proof.
  intros Hsplit Hdetached Hheader Hnull Hlacks.
  apply split_three_inv in Hsplit as Hsig. destruct Hsig as [Hsig _].
  unfold Crypto.verify.
  rewrite Hsig at 1. rewrite three_segments_not_empty, Hsplit.
  assert (Hpayload : exists p',
    match detachedPayload opts with
    | Some d => if negb (is_empty p) then throw MalformedSignature
                else ret (uint8Array_toBase64Url W d)
    | None => ret p
    end = (@ret number CryptoKey _ p')).
  { destruct (detachedPayload opts) as [d|].
    - destruct Hdetached as [Hd | ->]; [discriminate|]. eexists. reflexivity.
    - eexists. reflexivity. }
  destruct Hpayload as [p' ->]. rewrite Hheader.
  destruct header as [| b | n | str | elements | members];
    try contradiction; cbn in *.
  - destruct Hlacks; discriminate || reflexivity.
  - destruct Hlacks; reflexivity.
  - destruct Hlacks; reflexivity.
  - destruct Hlacks; reflexivity.
  - destruct Hlacks as [Ha | Hk].
    + rewrite Ha. reflexivity.
    + rewrite Hk. rewrite orb_true_r. reflexivity.
Qed.

End EarlyFailures.

(** ** The run of [verify] up to the signature algorithm *)

Section Pipeline.

Context {number CryptoKey : Type} `{JsPrimitives number}.
Variable W : Collaborators number CryptoKey.

Import JsString.
Local Open Scope string_scope.

Lemma header_member_property (name : string) (header x : json number) :
  header_member name header = Some x ->
  Crypto.property (CryptoKey := CryptoKey) header name = ret (Some x).
Proof.
  destruct header; simpl; try discriminate. intros ->. reflexivity.
Qed.

Lemma verify_three_segments (opts : VerifyOptions) (h p s : string) :
  split "." (signature opts) = [h; p; s] ->
  is_empty (signature opts) = false.
Proof.
  intros Hsplit. apply split_three_inv in Hsplit as [-> _].
  apply three_segments_not_empty.
Qed.

Lemma verify_after_resolution opts h p' s header_alg kid key :
  key_resolved W opts h p' s header_alg kid key ->
  Crypto.verify W opts
  = match base64Url_toUint8Array W s with
    | None => ([DidResolution (JString kid)], Thrown ConvertFailure)
    | Some signatureBytes =>
    match own_property (toString header_alg ++ ":" ++ curve_label key)
            (Crypto.algorithms W) with
    | None => ([DidResolution (JString kid)], Thrown TypeError)
    | Some algorithm =>
        let data := list_byte_of_string (h ++ "." ++ p') in
        match jwkToCryptoKey W (Crypto.monkeyPatch key) with
        | None => ([DidResolution (JString kid);
                    KeyConversion (Crypto.monkeyPatch key)],
                   Thrown KeyConversionFailure)
        | Some k =>
            ([DidResolution (JString kid); KeyConversion (Crypto.monkeyPatch key);
              Verifying k data signatureBytes],
             match signer_verify (signer algorithm) (options algorithm)
                     k data signatureBytes with
             | None => Thrown VerificationFailure
             | Some true => Returned (before_first "#" kid)
             | Some false => Thrown IntegrityMismatch
             end)
        end
    end end.
Proof.
  intros [[p [Hsplit Hpayload]] [header [Hheader [Halg Hkid]]] Htruthy Hnonempty
            [id [type Hresolved]]].
  unfold Crypto.verify.
  rewrite (verify_three_segments _ Hsplit), Hsplit.
  assert (Hp : match detachedPayload opts with
               | Some d => if negb (is_empty p) then throw MalformedSignature
                           else ret (uint8Array_toBase64Url W d)
               | None => ret p
               end = (@ret number CryptoKey _ p')).
  { unfold effective_payload in Hpayload.
    destruct (detachedPayload opts) as [d|].
    - destruct (is_empty p); [|discriminate]. injection Hpayload as <-. reflexivity.
    - injection Hpayload as <-. reflexivity. }
  rewrite Hp, Hheader. cbn [bind ret attempt].
  rewrite (header_member_property _ _ Halg). cbn [bind ret].
  rewrite (header_member_property _ _ Hkid). cbn [bind ret].
  assert (Hk : truthy (Some (JString (number := number) kid)) = true).
  { destruct kid; [contradiction | reflexivity]. }
  rewrite Htruthy, Hk, Hresolved.
  cbn [negb orb bind await isVerificationMethod publicKeyJwk].
  destruct (base64Url_toUint8Array W s) as [signatureBytes|]; [|reflexivity].
  cbn [attempt bind ret template].
  unfold curve_label.
  destruct (own_property _ (Crypto.algorithms W)) as [algorithm|]; [|reflexivity].
  destruct (jwkToCryptoKey W (Crypto.monkeyPatch key)) as [k|]; [|reflexivity].
  cbn [await bind].
  destruct (signer_verify _ _ _ _ _) as [[|]|]; try reflexivity.
  cbn [negb].
  destruct (split_first_is_before_first "#" kid) as [others ->]. reflexivity.
Qed.

End Pipeline.

(** ** The registry *)

Section Registry.

Context {number CryptoKey : Type} `{JsPrimitives number}.
Variable W : Collaborators number CryptoKey.

Local Open Scope string_scope.

Lemma registry_entries (algorithmId : string) (algorithm : SignerValue CryptoKey) :
  own_property algorithmId (Crypto.algorithms W) = Some algorithm ->
  algorithm = Crypto.secp256k1Signer W \/ algorithm = Crypto.ed25519Signer W.
Proof.
  unfold Crypto.algorithms. cbn [own_property].
  repeat match goal with
         | |- context [String.eqb ?a ?b] => destruct (String.eqb a b)
         end; intros Hentry; inversion Hentry; auto.
Qed.

(** An entry is found again under its own canonical labels, whichever
    key, full or partial, it was first found under. *)
Lemma registry_canonical (algorithmId : string) (algorithm : SignerValue CryptoKey) :
  own_property algorithmId (Crypto.algorithms W) = Some algorithm ->
  own_property (alg algorithm ++ ":" ++ crv algorithm) (Crypto.algorithms W)
  = Some algorithm
  /\ JsString.is_empty (alg algorithm) = false.
Proof.
  intros Hentry. destruct (registry_entries _ Hentry) as [-> | ->];
    split; reflexivity.
Qed.

Lemma sign_run (opts : SignOptions) (algorithm : SignerValue CryptoKey) :
  own_property (declared_pair (privateKeyJwk opts)) (Crypto.algorithms W)
  = Some algorithm ->
  let h := object_toBase64Url W (protected_header algorithm (kid opts)) in
  let p := uint8Array_toBase64Url W (payload opts) in
  let data := signing_input W algorithm (kid opts) (payload opts) in
  Crypto.sign W opts
  = match jwkToCryptoKey W (privateKeyJwk opts) with
    | None => ([KeyConversion (privateKeyJwk opts)], Thrown KeyConversionFailure)
    | Some key =>
        ([KeyConversion (privateKeyJwk opts); Signing key data],
         match signer_sign (signer algorithm) (options algorithm) key data with
         | None => Thrown SigningFailure
         | Some signatureBytes =>
             let s := uint8Array_toBase64Url W signatureBytes in
             Returned (if detached opts then h ++ ".." ++ s
                       else h ++ "." ++ p ++ "." ++ s)
         end)
    end.
Proof.
  intros Hentry. unfold Crypto.sign, declared_pair in *.
  rewrite !or_empty_default, Hentry.
  destruct (jwkToCryptoKey W (privateKeyJwk opts)) as [key|]; [|reflexivity].
  cbn [await bind]. unfold signing_input, protected_header.
  destruct (signer_sign _ _ _ _) as [signatureBytes|]; [|reflexivity].
  destruct (detached opts); reflexivity.
Qed.

End Registry.

(** ** Signing, then verifying *)

Section RoundTrip.

Context {number CryptoKey : Type} `{JsPrimitives number}.
Variable W : Collaborators number CryptoKey.

Import JsString.
Local Open Scope string_scope.

Lemma append_cancel_left (x y z : string) : x ++ y = x ++ z -> y = z.
Proof.
  induction x as [|c x IH]; simpl; intros Heq; [assumption|].
  injection Heq as Heq. auto.
Qed.

Lemma list_byte_of_string_injective (x y : string) :
  list_byte_of_string x = list_byte_of_string y -> x = y.
Proof.
  intros Heq.
  rewrite <- (string_of_list_byte_of_string x), <- (string_of_list_byte_of_string y).
  now rewrite Heq.
Qed.

Section Signed.

Variables (privateKey publicKey : Jwk) (keyId : string).
Variables (message signatureBytes : list byte).
Variable algorithm : SignerValue CryptoKey.
Variables signingKey verificationKey : CryptoKey.

Hypothesis registered :
  own_property (declared_pair privateKey) (Crypto.algorithms W) = Some algorithm.
Hypothesis keyId_not_empty : keyId <> "".
Hypothesis signing_handle : jwkToCryptoKey W privateKey = Some signingKey.
Hypothesis signed :
  signer_sign (signer algorithm) (options algorithm) signingKey
    (signing_input W algorithm keyId message) = Some signatureBytes.
Hypothesis key_published :
  published_key W algorithm keyId signingKey publicKey verificationKey.
Hypothesis convert :
  converts_back W (protected_header algorithm keyId) message signatureBytes.

Let h := object_toBase64Url W (protected_header algorithm keyId).
Let s := uint8Array_toBase64Url W signatureBytes.

Lemma signed_accepted :
  signer_verify (signer algorithm) (options algorithm) verificationKey
    (list_byte_of_string (h ++ "." ++ uint8Array_toBase64Url W message))
    signatureBytes = Some true.
Proof. exact (published_verifies key_published _ signed). Qed.

Lemma signed_key_resolved (supplied : option (list byte)) (p p' : string) :
  includes "." p = false ->
  effective_payload W supplied p = Some p' ->
  key_resolved W
    {| detachedPayload := supplied; signature := h ++ "." ++ p ++ "." ++ s |}
    h p' s (JString (alg algorithm)) keyId publicKey.
Proof.
  intros Hp Heffective. destruct convert, key_published.
  constructor; cbn [signature detachedPayload].
  - exists p. split; [|assumption]. apply split_three; assumption.
  - exists (protected_header algorithm keyId). repeat split; assumption || reflexivity.
  - cbn. now rewrite (proj2 (registry_canonical _ _ registered)).
  - assumption.
  - assumption.
Qed.

Lemma signed_verify_run (supplied : option (list byte)) (p p' : string) :
  includes "." p = false ->
  effective_payload W supplied p = Some p' ->
  outcome (Crypto.verify W {| detachedPayload := supplied;
                              signature := h ++ "." ++ p ++ "." ++ s |})
  = match signer_verify (signer algorithm) (options algorithm) verificationKey
            (list_byte_of_string (h ++ "." ++ p')) signatureBytes with
    | None => Thrown VerificationFailure
    | Some true => Returned (before_first "#" keyId)
    | Some false => Thrown IntegrityMismatch
    end.
Proof.
  intros Hp Heffective.
  rewrite (verify_after_resolution (signed_key_resolved _ _ Hp Heffective)).
  rewrite (signature_back convert : base64Url_toUint8Array W s = _).
  cbn [toString]. unfold curve_label.
  rewrite (published_curve key_published).
  rewrite (proj1 (registry_canonical _ _ registered)).
  cbv zeta. rewrite (published_handle key_published). reflexivity.
Qed.

(** C1, amended. When the private key's declared ([alg], [crv]) is a key
    of the registry and the public key published under [kid] declares the
    curve of the registry entry ([published_curve]), then for every message
    (the empty one included) [sign] returns a compact JWS and [verify] of
    that JWS returns the part of [kid] before the first ['#'].  The
    collaborators are assumed to do their part: key conversion and signing
    succeed, the resolver publishes under [kid] a public key that converts
    and verifies what the private key signs, and [Convert] decodes what it
    encoded. *)
Theorem sign_then_verify :
  exists jws,
    outcome (Crypto.sign W {| detached := false; payload := message;
                              privateKeyJwk := privateKey; kid := keyId |})
    = Returned jws
    /\ outcome (Crypto.verify W {| detachedPayload := None; signature := jws |})
       = Returned (before_first "#" keyId).
Proof.
  rewrite sign_run with (algorithm := algorithm) by exact registered.
  cbn [privateKeyJwk kid payload detached].
  rewrite signing_handle, signed. cbn [outcome snd].
  eexists. split; [reflexivity|].
  rewrite signed_verify_run with (p' := uint8Array_toBase64Url W message).
  - now rewrite signed_accepted.
  - apply (payload_dot_free convert).
  - reflexivity.
Qed.

(** C5, amended. With [detached] set and a private key whose declared
    pair is a key of the registry, [sign] returns the header segment, two
    dots and the signature segment; when the public key published under
    [kid] declares the curve of the registry entry ([published_curve]),
    [verify] of that string with the original message as [detachedPayload]
    returns the signer's DID, and with any other [detachedPayload] it fails
    with [IntegrityMismatch] (given that the signature algorithm accepts the
    signature for the signed data only). *)
Theorem detached_round_trip :
  outcome (Crypto.sign W {| detached := true; payload := message;
                            privateKeyJwk := privateKey; kid := keyId |})
  = Returned (h ++ ".." ++ s)
  /\ outcome (Crypto.verify W {| detachedPayload := Some message;
                                 signature := h ++ ".." ++ s |})
     = Returned (before_first "#" keyId)
  /\ (forall message',
         message' <> message ->
         payload_back W message -> payload_back W message' ->
         rejects_other_data algorithm verificationKey
           (signing_input W algorithm keyId message) signatureBytes ->
         outcome (Crypto.verify W {| detachedPayload := Some message';
                                     signature := h ++ ".." ++ s |})
         = Thrown IntegrityMismatch).
Proof.
  split; [|split].
  - rewrite sign_run with (algorithm := algorithm) by exact registered.
    cbn [privateKeyJwk kid payload detached].
    rewrite signing_handle, signed. reflexivity.
  - change (h ++ ".." ++ s) with (h ++ "." ++ "" ++ "." ++ s).
    rewrite signed_verify_run with (p' := uint8Array_toBase64Url W message);
      try reflexivity.
    now rewrite signed_accepted.
  - intros message' Hdiff Hback Hback' Hrejects.
    change (h ++ ".." ++ s) with (h ++ "." ++ "" ++ "." ++ s).
    rewrite signed_verify_run with (p' := uint8Array_toBase64Url W message');
      try reflexivity.
    rewrite Hrejects; [reflexivity|].
    unfold signing_input. fold h. intros Heq.
    apply list_byte_of_string_injective, append_cancel_left in Heq.
    injection Heq as Heq. apply Hdiff.
    unfold payload_back in *. rewrite Heq in Hback'. congruence.
Qed.

End Signed.

(** C10. [verify] does not look for a ['#'] in [kid]: a signature that
    passes every check, and whose [kid] has no ['#'], is accepted, and
    the whole of [kid] is returned. *)
Theorem verify_kid_without_fragment (opts : VerifyOptions) (h p' s kid : string)
  (header_alg : json number) (key : Jwk) (signatureBytes : list byte)
  (algorithm : SignerValue CryptoKey) (verificationKey : CryptoKey) :
  key_resolved W opts h p' s header_alg kid key ->
  base64Url_toUint8Array W s = Some signatureBytes ->
  own_property (toString header_alg ++ ":" ++ curve_label key) (Crypto.algorithms W)
  = Some algorithm ->
  jwkToCryptoKey W (Crypto.monkeyPatch key) = Some verificationKey ->
  signer_verify (signer algorithm) (options algorithm) verificationKey
    (list_byte_of_string (h ++ "." ++ p')) signatureBytes = Some true ->
  includes "#" kid = false ->
  outcome (Crypto.verify W opts) = Returned kid.
Proof.
  intros Hresolved Hsignature Hentry Hkey Hlegit Hfragment.
  rewrite (verify_after_resolution Hresolved), Hsignature, Hentry. cbv zeta.
  rewrite Hkey, Hlegit. cbn [outcome snd].
  now rewrite before_first_without_separator.
Qed.

(** C2. What [verify] does when the registry has no entry for the header's
    [alg] and the public key's [crv]: it does not fail with
    [UnsupportedAlgorithm], as [sign] does; the destructuring of
    [undefined] raises a [TypeError], right after the DID resolution. *)
Theorem verify_unregistered_pair (opts : VerifyOptions) (h p' s kid : string)
  (header_alg : json number) (key : Jwk) (signatureBytes : list byte) :
  key_resolved W opts h p' s header_alg kid key ->
  base64Url_toUint8Array W s = Some signatureBytes ->
  ~ In (toString header_alg ++ ":" ++ curve_label key) registry_keys ->
  Crypto.verify W opts = ([DidResolution (JString kid)], Thrown TypeError).
Proof.
  intros Hresolved Hsignature Habsent.
  rewrite (verify_after_resolution Hresolved), Hsignature.
  change registry_keys with (map fst (Crypto.algorithms W)) in Habsent.
  apply own_property_absent in Habsent. now rewrite Habsent.
Qed.

End RoundTrip.

(** ** Detached payloads *)

Section Detached.

Context {number CryptoKey : Type} `{JsPrimitives number}.
Variable W : Collaborators number CryptoKey.

Import JsString.
Local Open Scope string_scope.

Lemma verifies_only_ret {A} data (a : A) :
  verifies_only data (ret (number := number) (CryptoKey := CryptoKey) a).
Proof. intros data' []. Qed.

Lemma verifies_only_throw {A} data (e : Error) :
  verifies_only data (throw (number := number) (CryptoKey := CryptoKey) (A := A) e).
Proof. intros data' []. Qed.

Lemma verifies_only_attempt {A} data (r : option A) (e : Error) :
  verifies_only data (attempt (number := number) (CryptoKey := CryptoKey) r e).
Proof. destruct r; intros data' []. Qed.

Lemma verifies_only_await {A} data (ev : Event number CryptoKey) (r : option A)
  (e : Error) :
  match ev with Verifying _ data' _ => data' = data | _ => True end ->
  verifies_only data (await ev r e).
Proof.
  intros Hev data'. unfold verifies_only, await, calls. cbn.
  destruct ev; cbn; intros Hin; try contradiction.
  destruct Hin as [<- | []]. assumption.
Qed.

Lemma verifies_only_bind {A B} data (m : M number CryptoKey A)
  (f : A -> M number CryptoKey B) :
  verifies_only data m -> (forall a, verifies_only data (f a)) ->
  verifies_only data (bind m f).
Proof.
  unfold verifies_only, bind, calls, verified_data.
  destruct m as [events [a | e]]; cbn [fst]; intros Hm Hf data'; [|apply Hm].
  specialize (Hf a). destruct (f a) as [events' r]. cbn [fst] in *.
  rewrite flat_map_app, in_app_iff. intros [Hin | Hin]; auto.
Qed.

Lemma verifies_only_bind_ret {A B} data (a : A) (f : A -> M number CryptoKey B) :
  verifies_only data (f a) -> verifies_only data (bind (ret a) f).
Proof.
  unfold verifies_only, bind, ret, calls. destruct (f a). exact (fun Hf => Hf).
Qed.

Ltac verifies_only :=
  repeat first
    [ apply verifies_only_bind_ret
    | apply verifies_only_ret
    | apply verifies_only_throw
    | apply verifies_only_attempt
    | apply verifies_only_await; [exact I || reflexivity]
    | apply verifies_only_bind; [|intros ?]
    | match goal with
      | |- verifies_only _ (match ?x with _ => _ end) => destruct x
      | |- verifies_only _ (if ?x then _ else _) => destruct x
      end ].

Lemma is_empty_true (x : string) : is_empty x = true <-> x = "".
Proof. destruct x; simpl; split; congruence. Qed.

(** C6. When [detachedPayload] is supplied, a non-empty embedded payload
    segment fails with [MalformedSignature].  With an empty one, the signed
    data is rebuilt from the base64url encoding of [detachedPayload]:
    whenever the checks before the signature algorithm pass (the header
    carries [alg] and a [kid] that dereferences to a verification method
    with a public key, the signature segment decodes, header and key name a
    registry entry, the key converts), the algorithm is asked to verify the
    decoded signature over the bytes of [<header>.<base64url(detachedPayload)>],
    and its answer decides the outcome; no run ever submits other data to a
    signature algorithm; and the run is the one of the attached signature
    that carries that encoding as its payload segment. *)
Theorem verify_detached_payload (sig h p s : string) (d : list byte) :
  split "." sig = [h; p; s] ->
  let opts := {| detachedPayload := Some d; signature := sig |} in
  let signedDataBytes := list_byte_of_string (h ++ "." ++ uint8Array_toBase64Url W d) in
  (p <> "" -> Crypto.verify W opts = ([], Thrown MalformedSignature))
  /\ (p = "" ->
      (forall (header header_alg : json number) (kid id type : string) (key : Jwk)
              (signatureBytes : list byte) (algorithm : SignerValue CryptoKey)
              (verificationKey : CryptoKey),
          base64Url_toObject W h = Some header ->
          header_member "alg" header = Some header_alg ->
          truthy (Some header_alg) = true ->
          header_member "kid" header = Some (JString kid) ->
          kid <> "" ->
          deferenceDidUrl W (JString kid)
          = Some (VerificationMethod id type (Some key)) ->
          base64Url_toUint8Array W s = Some signatureBytes ->
          own_property (toString header_alg ++ ":" ++ curve_label key)
            (Crypto.algorithms W) = Some algorithm ->
          jwkToCryptoKey W (Crypto.monkeyPatch key) = Some verificationKey ->
          Crypto.verify W opts
          = ([DidResolution (JString kid); KeyConversion (Crypto.monkeyPatch key);
              Verifying verificationKey signedDataBytes signatureBytes],
             match signer_verify (signer algorithm) (options algorithm)
                     verificationKey signedDataBytes signatureBytes with
             | None => Thrown VerificationFailure
             | Some true => Returned (before_first "#" kid)
             | Some false => Thrown IntegrityMismatch
             end))
      /\ verifies_only signedDataBytes (Crypto.verify W opts)
      /\ (includes "." (uint8Array_toBase64Url W d) = false ->
          Crypto.verify W opts
          = Crypto.verify W {| detachedPayload := None;
                               signature := h ++ "." ++ uint8Array_toBase64Url W d
                                              ++ "." ++ s |})).
Proof.
  intros Hsplit opts signedDataBytes. subst opts signedDataBytes.
  pose proof (verify_three_segments {| detachedPayload := Some d; signature := sig |}
                Hsplit) as Hnonempty.
  apply split_three_inv in Hsplit as Hparts.
  destruct Hparts as [Hsig [Hh [Hp Hs]]].
  cbn [signature detachedPayload] in *.
  split; [|intros ->; split; [|split]].
  - intros Hne. unfold Crypto.verify. cbn [signature detachedPayload].
    rewrite Hnonempty, Hsplit. destruct p; [contradiction | reflexivity].
  - intros header header_alg kid id type key signatureBytes algorithm verificationKey
           Hheader Halg Htruthy Hkid Hne Hresolved Hsignature Hentry Hkey.
    assert (Hpipeline : key_resolved W {| detachedPayload := Some d; signature := sig |}
                          h (uint8Array_toBase64Url W d) s header_alg kid key).
    { constructor; cbn [signature detachedPayload].
      - exists "". split; [assumption | reflexivity].
      - exists header. split; [|split]; assumption.
      - assumption.
      - assumption.
      - exists id, type. assumption. }
    rewrite (verify_after_resolution Hpipeline), Hsignature, Hentry. cbv zeta.
    rewrite Hkey. reflexivity.
  - unfold Crypto.verify, Crypto.property.
    cbn [signature detachedPayload]. rewrite Hnonempty, Hsplit.
    cbn [is_empty negb]. verifies_only.
  - intros Hd. unfold Crypto.verify.
    cbn [signature detachedPayload].
    rewrite Hnonempty, Hsplit, three_segments_not_empty, (split_three _ _ _ Hh Hd Hs).
    reflexivity.
Qed.

End Detached.

(** ** Accepted signatures *)

Section Accepted.

Context {number CryptoKey : Type} `{JsPrimitives number}.
Variable W : Collaborators number CryptoKey.

Import JsString.
Local Open Scope string_scope.

Lemma outcome_bind_returned {A B} (m : M number CryptoKey A)
  (f : A -> M number CryptoKey B) (b : B) :
  outcome (bind m f) = Returned b ->
  exists a, outcome m = Returned a /\ outcome (f a) = Returned b.
Proof.
  unfold outcome, bind. destruct m as [events [a | e]]; cbn [snd].
  - destruct (f a) as [events' r] eqn:Hf. cbn [snd]. intros ->.
    exists a. rewrite Hf. auto.
  - discriminate.
Qed.

Lemma outcome_attempt_returned {A} (r : option A) (e : Error) (a : A) :
  outcome (attempt (number := number) (CryptoKey := CryptoKey) r e) = Returned a ->
  r = Some a.
Proof. destruct r; cbn; congruence. Qed.

Lemma outcome_await_returned {A} (ev : Event number CryptoKey) (r : option A)
  (e : Error) (a : A) :
  outcome (await ev r e) = Returned a -> r = Some a.
Proof. destruct r; cbn; congruence. Qed.

Lemma property_returned (header : json number) (name : string) (v : option (json number)) :
  outcome (Crypto.property (CryptoKey := CryptoKey) header name) = Returned v ->
  v = header_member name header.
Proof. destruct header; cbn; congruence. Qed.

(** A run of [verify] that returns has passed every check. *)
Lemma verify_returned (opts : VerifyOptions) (did : string) :
  outcome (Crypto.verify W opts) = Returned did ->
  exists h p' s header_alg kid key signatureBytes algorithm verificationKey,
    key_resolved W opts h p' s header_alg kid key
    /\ base64Url_toUint8Array W s = Some signatureBytes
    /\ own_property (toString header_alg ++ ":" ++ curve_label key)
         (Crypto.algorithms W) = Some algorithm
    /\ jwkToCryptoKey W (Crypto.monkeyPatch key) = Some verificationKey
    /\ signer_verify (signer algorithm) (options algorithm) verificationKey
         (list_byte_of_string (h ++ "." ++ p')) signatureBytes = Some true
    /\ did = before_first "#" kid.
Proof.
  unfold Crypto.verify.
  destruct (is_empty (signature opts)) eqn:Hempty; [discriminate|].
  destruct (split "." (signature opts)) as [|h [|p [|s [|extra rest]]]] eqn:Hsplit;
    try discriminate.
  intros Hrun.
  apply outcome_bind_returned in Hrun as [p' [Hpayload Hrun]].
  apply outcome_bind_returned in Hrun as [header [Hheader Hrun]].
  apply outcome_attempt_returned in Hheader.
  apply outcome_bind_returned in Hrun as [header_alg [Halg Hrun]].
  apply property_returned in Halg.
  apply outcome_bind_returned in Hrun as [header_kid [Hkid Hrun]].
  apply property_returned in Hkid.
  destruct (negb (truthy header_alg) || negb (truthy header_kid)) eqn:Htruthy;
    [discriminate|].
  apply orb_false_elim in Htruthy as [Htruthy_alg Htruthy_kid].
  apply negb_false_iff in Htruthy_alg, Htruthy_kid.
  destruct header_kid as [didUrl|]; [|discriminate].
  apply outcome_bind_returned in Hrun as [method [Hmethod Hrun]].
  apply outcome_await_returned in Hmethod.
  destruct method as [id type [key|]|]; try discriminate.
  cbn [isVerificationMethod negb publicKeyJwk] in Hrun.
  apply outcome_bind_returned in Hrun as [signatureBytes [Hsignature Hrun]].
  apply outcome_attempt_returned in Hsignature.
  destruct (own_property _ (Crypto.algorithms W)) as [algorithm|] eqn:Hentry;
    [|discriminate].
  apply outcome_bind_returned in Hrun as [verificationKey [Hkey Hrun]].
  apply outcome_await_returned in Hkey.
  apply outcome_bind_returned in Hrun as [isLegit [Hlegit Hrun]].
  apply outcome_await_returned in Hlegit.
  destruct isLegit; [|discriminate]. cbn [negb] in Hrun.
  destruct didUrl as [| | |kid| |]; try discriminate.
  destruct header_alg as [header_alg|]; [|discriminate].
  exists h, p', s, header_alg, kid, key, signatureBytes, algorithm, verificationKey.
  split; [constructor|repeat split]; try assumption.
  - exists p. split; [exact Hsplit|].
    unfold effective_payload. destruct (detachedPayload opts) as [d|].
    + destruct (is_empty p); [|discriminate]. cbn in Hpayload. congruence.
    + cbn in Hpayload. congruence.
  - exists header. auto using eq_sym.
  - destruct kid; [discriminate | discriminate].
  - eauto.
  - destruct (split_first_is_before_first "#" kid) as [others Hdid].
    rewrite Hdid in Hrun. cbn in Hrun. congruence.
Qed.

End Accepted.

(** ** Tampering with an accepted signature *)

Section FlipFacts.

Import JsString.

Lemma flip_bit_differs (n : nat) (c : ascii) : flip_bit n c <> c.
Proof.
  destruct c as [b0 b1 b2 b3 b4 b5 b6 b7].
  do 8 (destruct n as [|n]; [cbn; intros Heq; injection Heq;
                             intros; eapply no_fixpoint_negb; eassumption|]).
  cbn. intros Heq. injection Heq. intros. eapply no_fixpoint_negb; eassumption.
Qed.

Lemma flip_at_differs (i n : nat) (s : string) :
  i < String.length s -> flip_at i n s <> s.
Proof.
  revert i. induction s as [|c s IH]; intros i Hi; cbn in Hi; [lia|].
  destruct i as [|i]; cbn; intros Heq; injection Heq.
  - apply flip_bit_differs.
  - apply IH. lia.
Qed.

End FlipFacts.

Section Tampering.

Context {number CryptoKey : Type} `{JsPrimitives number}.
Variable W : Collaborators number CryptoKey.

Import JsString.
Local Open Scope string_scope.

Lemma length_append (x y : string) :
  String.length (x ++ y) = String.length x + String.length y.
Proof. induction x as [|c x IH]; cbn; [reflexivity | now rewrite IH]. Qed.

Lemma append_cancel_right (x y z : string) : x ++ z = y ++ z -> x = y.
Proof.
  revert y. induction x as [|c x IH]; intros [|d y] Heq; cbn in Heq.
  - reflexivity.
  - exfalso. apply (f_equal String.length) in Heq.
    cbn in Heq. rewrite length_append in Heq. lia.
  - exfalso. apply (f_equal String.length) in Heq.
    cbn in Heq. rewrite length_append in Heq. lia.
  - injection Heq as -> Heq. f_equal. auto.
Qed.

Lemma compact_with_dot (h p s : string) :
  includes "." h || includes "." p || includes "." s = true ->
  List.length (split "." (compact h p s)) <> 3.
Proof.
  intros Hdot. unfold compact.
  rewrite split_length_append, split_length_append.
  pose proof (split_not_nil "." h). pose proof (split_not_nil "." p).
  pose proof (split_not_nil "." s).
  apply orb_true_iff in Hdot as [Hdot | Hdot];
    [apply orb_true_iff in Hdot as [Hdot | Hdot]|];
    apply split_length_includes in Hdot;
    destruct (split "." h), (split "." p), (split "." s);
    cbn in *; try contradiction; lia.
Qed.

Lemma verify_mutated_with_dot (opts : VerifyOptions) (h p s : string) :
  includes "." h || includes "." p || includes "." s = true ->
  verify_mutated W opts (compact h p s) = Thrown MalformedSignature.
Proof.
  intros Hdot. unfold verify_mutated.
  rewrite verify_not_three_segments;
    [reflexivity | | apply compact_with_dot; assumption].
  unfold compact. destruct h; discriminate.
Qed.

Section Accepted.

Variables (opts : VerifyOptions) (h p s did : string).
Hypothesis evident : tamper_evident W.
Hypothesis segments : split "." (signature opts) = [h; p; s].
Hypothesis accepted : outcome (Crypto.verify W opts) = Returned did.

Lemma accepted_run :
  exists p' header_alg kid key signatureBytes algorithm verificationKey,
    key_resolved W opts h p' s header_alg kid key
    /\ base64Url_toUint8Array W s = Some signatureBytes
    /\ own_property (toString header_alg ++ ":" ++ curve_label key)
         (Crypto.algorithms W) = Some algorithm
    /\ jwkToCryptoKey W (Crypto.monkeyPatch key) = Some verificationKey
    /\ signer_verify (signer algorithm) (options algorithm) verificationKey
         (list_byte_of_string (h ++ "." ++ p')) signatureBytes = Some true.
Proof.
  destruct (verify_returned W opts accepted)
    as (h0 & p' & s0 & header_alg & kid & key & signatureBytes & algorithm
        & verificationKey & Hresolved & Hsignature & Hentry & Hkey & Hlegit & _).
  destruct (resolved_split Hresolved) as [p0 [Hsplit _]].
  rewrite segments in Hsplit. injection Hsplit as <- <- <-.
  exists p', header_alg, kid, key, signatureBytes, algorithm, verificationKey.
  auto.
Qed.

Lemma header_replaced (x : string) :
  x <> h -> exists e, verify_mutated W opts (compact x p s) = Thrown e.
Proof.
  intros Hx. destruct (includes "." x) eqn:Hdot.
  { eexists. apply verify_mutated_with_dot. now rewrite Hdot. }
  destruct (verify_mutated W opts (compact x p s)) as [did'|e] eqn:Hrun;
    [exfalso | eauto].
  destruct accepted_run
    as (p' & header_alg & kid & key & signatureBytes & algorithm & verificationKey
        & Hresolved & Hsignature & Hentry & Hkey & Hlegit).
  destruct (verify_returned W _ Hrun)
    as (h2 & p2' & s2 & header_alg2 & kid2 & key2 & signatureBytes2 & algorithm2
        & verificationKey2 & Hresolved2 & Hsignature2 & Hentry2 & Hkey2 & Hlegit2 & _).
  destruct (resolved_split Hresolved) as [p0 [Hsplit Hpayload]].
  rewrite segments in Hsplit. injection Hsplit as <-.
  destruct (resolved_split Hresolved2) as [p2 [Hsplit2 Hpayload2]].
  cbn [signature detachedPayload] in Hsplit2, Hpayload2.
  apply split_three_inv in segments as Hparts.
  destruct Hparts as [_ [_ [Hp Hs]]].
  unfold compact in Hsplit2. rewrite (split_three _ _ _ Hdot Hp Hs) in Hsplit2.
  injection Hsplit2 as <- <- <-.
  rewrite Hpayload in Hpayload2. injection Hpayload2 as <-.
  rewrite Hsignature in Hsignature2. injection Hsignature2 as <-.
  assert (Hdata : list_byte_of_string (x ++ "." ++ p')
                  = list_byte_of_string (h ++ "." ++ p')).
  { eapply (one_data evident);
      [exact Hentry | exact Hentry2 | exact Hlegit | exact Hlegit2]. }
  apply list_byte_of_string_injective, append_cancel_right in Hdata.
  contradiction.
Qed.

Lemma payload_replaced (x : string) :
  x <> p ->
  verify_mutated W opts (compact h x s)
  = Thrown (if includes "." x || match detachedPayload opts with
                                 | Some _ => true
                                 | None => false
                                 end
            then MalformedSignature else IntegrityMismatch).
Proof.
  intros Hx. destruct (includes "." x) eqn:Hdot.
  { apply verify_mutated_with_dot. rewrite Hdot.
    now rewrite orb_true_r. }
  destruct accepted_run
    as (p' & header_alg & kid & key & signatureBytes & algorithm & verificationKey
        & Hresolved & Hsignature & Hentry & Hkey & Hlegit).
  apply split_three_inv in segments as Hparts.
  destruct Hparts as [_ [Hh [Hp Hs]]].
  destruct (resolved_split Hresolved) as [p0 [Hsplit Hpayload]].
  rewrite segments in Hsplit. injection Hsplit as <-.
  unfold verify_mutated, effective_payload in *.
  destruct (detachedPayload opts) as [d|] eqn:Hdetached; cbn [orb].
  - (* the embedded payload of the accepted signature was empty *)
    destruct (is_empty p) eqn:Hempty; [|discriminate].
    apply is_empty_true in Hempty. subst p.
    unfold Crypto.verify. cbn [signature detachedPayload].
    unfold compact. rewrite three_segments_not_empty, (split_three _ _ _ Hh Hdot Hs).
    destruct x; [contradiction | reflexivity].
  - injection Hpayload as <-.
    assert (Hresolved' : key_resolved W
              {| detachedPayload := None; signature := compact h x s |}
              h x s header_alg kid key).
    { destruct Hresolved as [_ Hheader Halg Hkid Hmethod].
      constructor; try assumption.
      exists x. split; [apply split_three; assumption | reflexivity]. }
    rewrite (verify_after_resolution Hresolved'), Hsignature, Hentry.
    cbv zeta. rewrite Hkey. cbn [outcome snd].
    destruct (signer_verify (signer algorithm) (options algorithm) verificationKey
                (list_byte_of_string (h ++ "." ++ x)) signatureBytes)
      as [[|]|] eqn:Hlegit'.
    + exfalso.
      assert (Hdata : list_byte_of_string (h ++ "." ++ x)
                      = list_byte_of_string (h ++ "." ++ p)).
      { eapply (one_data evident);
          [exact Hentry | exact Hentry | exact Hlegit | exact Hlegit']. }
      apply list_byte_of_string_injective, append_cancel_left in Hdata.
      injection Hdata as Hdata. contradiction.
    + reflexivity.
    + exfalso. revert Hlegit'. eapply (answers evident); [exact Hentry|].
      rewrite Hlegit. discriminate.
Qed.

Lemma signature_replaced (x : string) :
  x <> s ->
  if includes "." x
  then verify_mutated W opts (compact h p x) = Thrown MalformedSignature
  else verify_mutated W opts (compact h p x) = Thrown ConvertFailure
       \/ verify_mutated W opts (compact h p x) = Thrown VerificationFailure
       \/ verify_mutated W opts (compact h p x) = Thrown IntegrityMismatch.
Proof.
  intros Hx. destruct (includes "." x) eqn:Hdot.
  { apply verify_mutated_with_dot. rewrite Hdot. apply orb_true_r. }
  destruct accepted_run
    as (p' & header_alg & kid & key & signatureBytes & algorithm & verificationKey
        & Hresolved & Hsignature & Hentry & Hkey & Hlegit).
  apply split_three_inv in segments as Hparts.
  destruct Hparts as [_ [Hh [Hp Hs]]].
  destruct (resolved_split Hresolved) as [p0 [Hsplit Hpayload]].
  rewrite segments in Hsplit. injection Hsplit as <-.
  assert (Hresolved' : key_resolved W
            {| detachedPayload := detachedPayload opts; signature := compact h p x |}
            h p' x header_alg kid key).
  { destruct Hresolved as [_ Hheader Halg Hkid Hmethod].
    constructor; try assumption.
    exists p. split; [apply split_three; assumption | assumption]. }
  unfold verify_mutated. rewrite (verify_after_resolution Hresolved').
  destruct (base64Url_toUint8Array W x) as [bytes|] eqn:Hbytes; [|now left].
  rewrite Hentry. cbv zeta. rewrite Hkey. cbn [outcome snd].
  destruct (signer_verify (signer algorithm) (options algorithm) verificationKey
              (list_byte_of_string (h ++ "." ++ p')) bytes)
    as [[|]|] eqn:Hlegit'; auto.
  exfalso.
  assert (bytes = signatureBytes) as ->.
  { eapply (one_signature evident); [exact Hentry | exact Hlegit | exact Hlegit']. }
  apply Hx. eapply (one_encoding evident); eassumption.
Qed.

End Accepted.

(** C9, amended. After the flip of one bit of a segment of an accepted
    signature, [verify] never returns, provided tampering is evident to
    the signature algorithms and to [Convert] ([tamper_evident]).  A flip
    that creates a ['.'] fails with [MalformedSignature], in any segment.
    Otherwise a flip in the payload segment fails with
    [IntegrityMismatch]; a flip in the signature segment fails in
    [Convert], in the signature algorithm or with [IntegrityMismatch], not
    with [MalformedSignature]; and a flip in the header segment fails at
    the first step the new header violates, which need not be the header
    check. *)
Theorem single_bit_mutation (opts : VerifyOptions) (h p s did : string) (i n : nat) :
  tamper_evident W ->
  split "." (signature opts) = [h; p; s] ->
  outcome (Crypto.verify W opts) = Returned did ->
  (i < String.length h ->
   let sig' := compact (flip_at i n h) p s in
   if includes "." (flip_at i n h)
   then verify_mutated W opts sig' = Thrown MalformedSignature
   else exists e, verify_mutated W opts sig' = Thrown e)
  /\ (i < String.length p ->
      let sig' := compact h (flip_at i n p) s in
      verify_mutated W opts sig'
      = Thrown (if includes "." (flip_at i n p)
                then MalformedSignature else IntegrityMismatch))
  /\ (i < String.length s ->
      let sig' := compact h p (flip_at i n s) in
      if includes "." (flip_at i n s)
      then verify_mutated W opts sig' = Thrown MalformedSignature
      else verify_mutated W opts sig' = Thrown ConvertFailure
           \/ verify_mutated W opts sig' = Thrown VerificationFailure
           \/ verify_mutated W opts sig' = Thrown IntegrityMismatch).
Proof.
  intros Hevident Hsegments Haccepted. repeat split.
  - intros Hi. cbv zeta.
    destruct (includes "." (flip_at i n h)) eqn:Hdot.
    + apply verify_mutated_with_dot. now rewrite Hdot.
    + eapply header_replaced; eauto using flip_at_differs.
  - intros Hi. cbv zeta.
    erewrite payload_replaced; eauto using flip_at_differs.
    edestruct accepted_run
      as (p' & header_alg & kid & key & _ & _ & _ & Hresolved & _);
      [exact Hsegments | exact Haccepted |].
    destruct (resolved_split Hresolved) as [p0 [Hsplit Hpayload]].
    rewrite Hsegments in Hsplit. injection Hsplit as <-.
    unfold effective_payload in Hpayload.
    destruct (detachedPayload opts) as [d|]; [|now rewrite orb_false_r].
    destruct p; [cbn in Hi; lia | discriminate].
  - intros Hi. cbv zeta.
    eapply signature_replaced; eauto using flip_at_differs.
Qed.

End Tampering.

(** ** The canonical form *)

Section KeyOrder.

Local Open Scope string_scope.

Lemma leb_true (a b : string) : String.leb a b = true -> a = b \/ String_as_OT.lt a b.
Proof.
  unfold String.leb. destruct (String.compare a b) eqn:Hcmp; try discriminate.
  - left. now apply String.compare_eq_iff.
  - right. now apply String_as_OT.cmp_lt.
Qed.

Lemma lt_leb (a b : string) : String_as_OT.lt a b -> String.leb a b = true.
Proof.
  intros Hlt. apply String_as_OT.cmp_lt in Hlt. unfold String.leb.
  unfold String_as_OT.cmp in Hlt. now rewrite Hlt.
Qed.

Lemma leb_trans (a b c : string) :
  String.leb a b = true -> String.leb b c = true -> String.leb a c = true.
Proof.
  intros Hab Hbc.
  destruct (leb_true _ _ Hab) as [-> | Hab']; [assumption|].
  destruct (leb_true _ _ Hbc) as [<- | Hbc']; [assumption|].
  apply lt_leb. eapply String_as_OT.lt_trans; eassumption.
Qed.

Lemma leb_false_flip (a b : string) : String.leb a b = false -> String.leb b a = true.
Proof. destruct (String.leb_total a b) as [-> | ->]; [discriminate | reflexivity]. Qed.

Ltac order_contradiction :=
  exfalso;
  repeat match goal with
         | H : String.leb _ _ = false |- _ => apply leb_false_flip in H
         end;
  match goal with
  | Hneq : ?a <> ?b |- _ =>
      apply Hneq; apply String.leb_antisym; eauto using leb_trans
  | Hneq : ?a <> ?b |- _ =>
      apply Hneq; symmetry; apply String.leb_antisym; eauto using leb_trans
  end.

Lemma insert_member_commute (x y : string * string) (l : list (string * string)) :
  fst x <> fst y ->
  Crypto.insert_member x (Crypto.insert_member y l)
  = Crypto.insert_member y (Crypto.insert_member x l).
Proof.
  intros Hneq. induction l as [|a l IH]; cbn [Crypto.insert_member].
  - destruct (String.leb (fst x) (fst y)) eqn:Hxy,
             (String.leb (fst y) (fst x)) eqn:Hyx;
      try reflexivity; order_contradiction.
  - destruct (String.leb (fst y) (fst a)) eqn:Hya,
             (String.leb (fst x) (fst a)) eqn:Hxa;
      cbn [Crypto.insert_member];
      destruct (String.leb (fst x) (fst y)) eqn:Hxy,
               (String.leb (fst y) (fst x)) eqn:Hyx;
      rewrite ?Hya, ?Hxa; try reflexivity; try (now rewrite IH);
      order_contradiction.
Qed.

Lemma sort_members_permutation (l l' : list (string * string)) :
  Permutation l l' -> NoDup (map fst l') ->
  Crypto.sort_members l = Crypto.sort_members l'.
Proof.
  unfold Crypto.sort_members.
  induction 1 as [| x l l' Hperm IH | x y l | l l' l'' Hperm IH Hperm' IH'];
    cbn [fold_right map]; intros Hdistinct.
  - reflexivity.
  - inversion Hdistinct; subst. now rewrite IH.
  - apply insert_member_commute.
    inversion Hdistinct as [|? ? Hnotin _]; subst.
    intros Heq. apply Hnotin. left. now symmetry.
  - rewrite IH, IH'; [reflexivity | assumption |].
    eapply Permutation_NoDup; [|exact Hdistinct].
    apply Permutation_map, Permutation_sym, Hperm'.
Qed.

End KeyOrder.

Section Digest.

Context {number CryptoKey : Type} `{JsPrimitives number}.
Variable W : Collaborators number CryptoKey.

Local Open Scope string_scope.

Lemma canonicalize_same_value (v w : json number) :
  same_value v w -> Crypto.canonicalize v = Crypto.canonicalize w.
Proof.
  intros Hsame. induction Hsame using same_value_induction;
    try reflexivity; cbn [Crypto.canonicalize].
  - do 3 f_equal.
    match goal with H : Forall2 _ _ _ |- _ => induction H as [|x y xs ys Hxy _ IH] end;
      cbn [map]; [reflexivity | now rewrite Hxy, IH].
  - do 4 f_equal.
    match goal with H : Forall2 _ ms ms' |- _ => rename H into Hmembers end.
    assert (Hmap : map (fun '(k, x) => (k, Crypto.canonicalize x)) ms
                   = map (fun '(k, x) => (k, Crypto.canonicalize x)) ms').
    { clear -Hmembers.
      induction Hmembers as [|[k x] [k' x'] ms ms' [Hk Hx] _ IH];
        cbn [map]; [reflexivity|].
      cbn in Hk, Hx. now rewrite Hk, Hx, IH. }
    rewrite Hmap. apply sort_members_permutation.
    + now apply Permutation_map.
    + rewrite map_map.
      erewrite map_ext; [eassumption|]. now intros [k x].
Qed.

(** C8. [digest] is a function of the JSON value alone: two values that
    differ only in the order of the members of their objects have the same
    canonical text and so the same digest, byte for byte; as a function,
    it gives the same bytes whenever it is called on the same value. *)
Theorem digest_key_order_independent (v w : json number) :
  same_value v w -> Crypto.digest W v = Crypto.digest W w.
Proof.
  intros Hsame. unfold Crypto.digest.
  now rewrite (canonicalize_same_value Hsame).
Qed.

End Digest.

(** * The properties on the test doubles *)

Section DoubleFacts.

Import Double.
Local Open Scope string_scope.

Lemma tagged_verifies (tag : byte) (o : option AlgorithmOptions) (key : byte)
  (data signatureBytes : list byte) :
  signer_sign (tagged tag) o key data = Some signatureBytes ->
  signer_verify (tagged tag) o key data signatureBytes = Some true.
Proof.
  cbn [signer_sign signer_verify tagged]. intros Hsigned. injection Hsigned as <-.
  destruct (list_eq_dec Byte.byte_eq_dec (tag :: key :: data) (tag :: key :: data));
    [reflexivity | contradiction].
Qed.

Lemma tagged_accepts (tag : byte) (o : option AlgorithmOptions) (key : byte)
  (data signatureBytes : list byte) :
  signer_verify (tagged tag) o key data signatureBytes = Some true ->
  signatureBytes = tag :: key :: data.
Proof.
  cbn [signer_verify tagged].
  destruct (list_eq_dec Byte.byte_eq_dec signatureBytes (tag :: key :: data));
    [auto | discriminate].
Qed.

Lemma world_algorithms (id : string) (a : SignerValue byte) :
  own_property id (Crypto.algorithms world) = Some a ->
  exists tag, signer a = tagged tag.
Proof.
  intros Hentry. destruct (registry_entries _ _ Hentry) as [-> | ->];
    eexists; reflexivity.
Qed.

Lemma base64url_decode_canonical (x : string) (bytes : list byte) :
  base64url_decode x = Some bytes -> base64url_encode bytes = x.
Proof.
  unfold base64url_decode.
  destruct (base64url_decode_lenient x) as [decoded|]; [|discriminate].
  destruct (String.eqb_spec (base64url_encode decoded) x); [|discriminate].
  congruence.
Qed.

Lemma world_tamper_evident : tamper_evident world.
Proof.
  constructor.
  - intros id id' a a' k k' data data' sg Ha Ha' Hlegit Hlegit'.
    destruct (world_algorithms _ Ha) as [tag Htag].
    destruct (world_algorithms _ Ha') as [tag' Htag'].
    rewrite Htag in Hlegit. rewrite Htag' in Hlegit'.
    apply tagged_accepts in Hlegit, Hlegit'. congruence.
  - intros id a k data sg sg' Ha Hlegit Hlegit'.
    destruct (world_algorithms _ Ha) as [tag Htag].
    rewrite Htag in Hlegit, Hlegit'.
    apply tagged_accepts in Hlegit, Hlegit'. congruence.
  - intros id a k data data' sg Ha _.
    destruct (world_algorithms _ Ha) as [tag ->]. discriminate.
  - intros x y bytes Hx Hy.
    apply base64url_decode_canonical in Hx, Hy. cbn in *. congruence.
Qed.

Lemma tagged_rejects_other_data (a : SignerValue byte) (tag key : byte)
  (data : list byte) :
  signer a = tagged tag ->
  rejects_other_data a key data (tag :: key :: data).
Proof.
  intros Htag data' Hdiff. rewrite Htag. cbn [signer_verify tagged].
  destruct (list_eq_dec Byte.byte_eq_dec (tag :: key :: data) (tag :: key :: data'))
    as [Heq|]; [|reflexivity].
  exfalso. apply Hdiff. congruence.
Qed.

Lemma ed25519_published (keyId : string) :
  resolve (JString keyId)
  = Some (VerificationMethod keyId "JsonWebKey2020" (Some ed25519PublicKey)) ->
  published_key world (Crypto.ed25519Signer world) keyId "K"%byte
    ed25519PublicKey "K"%byte.
Proof.
  intros Hresolve. constructor.
  - eexists. eexists. exact Hresolve.
  - reflexivity.
  - reflexivity.
  - intros data signatureBytes. apply tagged_verifies.
Qed.

Lemma secp256k1_published :
  published_key world (Crypto.secp256k1Signer world) "did:example:abc#key-2"
    "Q"%byte secp256k1PublicKey "Q"%byte.
Proof.
  constructor.
  - eexists. eexists. reflexivity.
  - reflexivity.
  - reflexivity.
  - intros data signatureBytes. apply tagged_verifies.
Qed.

End DoubleFacts.

Section Runs.

Import Double Cases.
Local Open Scope string_scope.

(** C1 on the empty payload, signed with an Ed25519 key. *)
Lemma sign_then_verify_witness :
  exists jws,
    outcome (Crypto.sign world {| detached := false; payload := [];
                                  privateKeyJwk := ed25519Key;
                                  kid := "did:example:abc#key-1" |})
    = Returned jws
    /\ outcome (Crypto.verify world {| detachedPayload := None; signature := jws |})
       = Returned "did:example:abc".
Proof.
  apply (@sign_then_verify Z byte primitives world
           ed25519Key ed25519PublicKey "did:example:abc#key-1" []
           (x02 :: "K"%byte
                :: signing_input world (Crypto.ed25519Signer world)
                     "did:example:abc#key-1" [])
           (Crypto.ed25519Signer world) "K"%byte "K"%byte).
  - reflexivity.
  - discriminate.
  - reflexivity.
  - reflexivity.
  - apply ed25519_published. reflexivity.
  - constructor; vm_compute; reflexivity.
Defined.

(** What [verify] does with what [es256kKey] signed: the header says
    [ES256K], the published public half declares no curve, the registry has
    no key [ES256K:undefined]. *)
Example alg_only_attached :
  Crypto.verify es256k_world {| detachedPayload := None; signature := jws_es256k |}
  = ([DidResolution (JString "did:example:k#key-1")], Thrown TypeError).
Proof. vm_compute. reflexivity. Qed.

Example alg_only_detached :
  Crypto.verify es256k_world {| detachedPayload := Some [x01; x02; x03];
                                signature := jws_es256k_detached |}
  = ([DidResolution (JString "did:example:k#key-1")], Thrown TypeError).
Proof. vm_compute. reflexivity. Qed.

Ltac alg_only_round_trip claim :=
  destruct (claim es256kKey es256kPublicKey "did:example:k#key-1" [x01; x02; x03]
              (x01 :: "Q"%byte
                   :: signing_input es256k_world (Crypto.secp256k1Signer es256k_world)
                        "did:example:k#key-1" [x01; x02; x03])
              (Crypto.secp256k1Signer es256k_world) "Q"%byte "Q"%byte)
    as [jws [Hsign Hverify]];
  [ reflexivity
  | discriminate
  | reflexivity
  | reflexivity
  | eexists; eexists; reflexivity
  | reflexivity
  | intros data signed; apply tagged_verifies
  | constructor; vm_compute; reflexivity
  | vm_compute in Hsign; injection Hsign as <-;
    vm_compute in Hverify; discriminate Hverify ].

(** C1 as stated fails for the registry key [ES256K:]: [es256kKey] declares
    [ES256K] and no curve, [sign] signs with it, the resolver publishes its
    public half, every collaborator does its part, and [verify] of the
    returned JWS does not return. *)
Lemma sign_then_verify_counterexample : ~ round_trip_as_stated es256k_world false.
Proof. intros Hclaim. alg_only_round_trip Hclaim. Qed.

(** C5 as stated fails for the same key: [verify] of the detached JWS with
    the original payload as [detachedPayload] does not return. *)
Lemma detached_round_trip_counterexample : ~ round_trip_as_stated es256k_world true.
Proof. intros Hclaim. alg_only_round_trip Hclaim. Qed.

(** C5, amended, on the Ed25519 key. *)
Lemma detached_round_trip_witness :
  let h := object_toBase64Url world
             (protected_header (Crypto.ed25519Signer world) "did:example:abc#key-1") in
  let s := uint8Array_toBase64Url world
             (x02 :: "K"%byte
                  :: signing_input world (Crypto.ed25519Signer world)
                       "did:example:abc#key-1" [x01; x02; x03]) in
  outcome (Crypto.sign world {| detached := true; payload := [x01; x02; x03];
                                privateKeyJwk := ed25519Key;
                                kid := "did:example:abc#key-1" |})
  = Returned (h ++ ".." ++ s)
  /\ outcome (Crypto.verify world {| detachedPayload := Some [x01; x02; x03];
                                     signature := h ++ ".." ++ s |})
     = Returned "did:example:abc"
  /\ outcome (Crypto.verify world {| detachedPayload := Some [x01; x02; x04];
                                     signature := h ++ ".." ++ s |})
     = Thrown IntegrityMismatch.
Proof.
  intros h s.
  destruct (@detached_round_trip Z byte primitives world
              ed25519Key ed25519PublicKey "did:example:abc#key-1"
              [x01; x02; x03]
              (x02 :: "K"%byte
                   :: signing_input world (Crypto.ed25519Signer world)
                        "did:example:abc#key-1" [x01; x02; x03])
              (Crypto.ed25519Signer world) "K"%byte "K"%byte)
    as [Hsign [Hverify Hother]].
  - reflexivity.
  - discriminate.
  - reflexivity.
  - reflexivity.
  - apply ed25519_published. reflexivity.
  - constructor; vm_compute; reflexivity.
  - split; [exact Hsign | split; [exact Hverify |]].
    apply Hother.
    + discriminate.
    + vm_compute. reflexivity.
    + vm_compute. reflexivity.
    + apply tagged_rejects_other_data. reflexivity.
Defined.

Ltac resolved :=
  constructor;
  [ eexists; split; vm_compute; reflexivity
  | eexists; repeat split; vm_compute; reflexivity
  | reflexivity
  | discriminate
  | eexists; eexists; vm_compute; reflexivity ].

(** C2 at a header that says [EdDSA] and a key that says [secp256k1]. *)
Lemma verify_unregistered_pair_witness :
  Crypto.verify world {| detachedPayload := None; signature := jws_mismatch |}
  = ([DidResolution (JString "did:example:abc#key-2")], Thrown TypeError).
Proof.
  apply (@verify_unregistered_pair Z byte primitives world
           {| detachedPayload := None; signature := jws_mismatch |}
           "eyJhbGciOiJFZERTQSIsImtpZCI6ImRpZDpleGFtcGxlOmFiYyNrZXktMiJ9"
           "AQID" "AQID" "did:example:abc#key-2" (JString "EdDSA")
           secp256k1PublicKey [x01; x02; x03]).
  - resolved.
  - vm_compute. reflexivity.
  - vm_compute. intuition discriminate.
Defined.

(** C3 at a key that declares [RS256] and no curve. *)
Lemma sign_unsupported_algorithm_witness :
  Crypto.sign world {| detached := false; payload := [x01; x02; x03];
                       privateKeyJwk := rsaKey; kid := "did:example:abc#key-1" |}
  = ([], Thrown (UnsupportedAlgorithm "RS256:")).
Proof.
  apply (@sign_unsupported_algorithm Z byte world).
  - reflexivity.
  - vm_compute. intuition discriminate.
Defined.

(** C4 at the strings of the specification. *)
Lemma verify_missing_or_malformed_signature_witness :
  Crypto.verify world {| detachedPayload := None; signature := "" |}
  = ([], Thrown MissingSignature)
  /\ Crypto.verify world {| detachedPayload := None; signature := "a.b" |}
     = ([], Thrown MalformedSignature)
  /\ Crypto.verify world {| detachedPayload := None; signature := "a.b.c.d" |}
     = ([], Thrown MalformedSignature).
Proof.
  split; [|split].
  - apply (proj1 (verify_missing_or_malformed_signature world None "")).
    reflexivity.
  - apply (proj2 (verify_missing_or_malformed_signature world None "a.b")).
    + discriminate.
    + vm_compute. discriminate.
  - apply (proj2 (verify_missing_or_malformed_signature world None "a.b.c.d")).
    + discriminate.
    + vm_compute. discriminate.
Defined.

(** C6 at a signature with an embedded payload, and at a detached one with
    its own payload and with another one: the data submitted for
    verification is the header segment, a dot and the encoding of the
    [detachedPayload] of the call ([AQID] for 1, 2, 3 and [AQIE] for
    1, 2, 4). *)
Lemma verify_detached_payload_witness :
  let signatureBytes :=
    x02 :: "K"%byte :: list_byte_of_string (header_key_1 ++ ".AQID") in
  Crypto.verify world {| detachedPayload := Some [x01; x02; x03];
                         signature := jws_key_1 |}
  = ([], Thrown MalformedSignature)
  /\ Crypto.verify world {| detachedPayload := Some [x01; x02; x03];
                            signature := jws_key_1_detached |}
     = ([DidResolution (JString "did:example:abc#key-1");
         KeyConversion (Crypto.monkeyPatch ed25519PublicKey);
         Verifying "K"%byte (list_byte_of_string (header_key_1 ++ ".AQID"))
           signatureBytes],
        Returned "did:example:abc")
  /\ Crypto.verify world {| detachedPayload := Some [x01; x02; x04];
                            signature := jws_key_1_detached |}
     = ([DidResolution (JString "did:example:abc#key-1");
         KeyConversion (Crypto.monkeyPatch ed25519PublicKey);
         Verifying "K"%byte (list_byte_of_string (header_key_1 ++ ".AQIE"))
           signatureBytes],
        Thrown IntegrityMismatch)
  /\ Crypto.verify world {| detachedPayload := Some [x01; x02; x03];
                            signature := jws_key_1_detached |}
     = Crypto.verify world {| detachedPayload := None; signature := jws_key_1 |}.
Proof.
  intros signatureBytes.
  pose proof (@verify_detached_payload Z byte primitives world
                jws_key_1 header_key_1 "AQID" signature_key_1 [x01; x02; x03]
                eq_refl) as [Hembedded _].
  pose proof (@verify_detached_payload Z byte primitives world
                jws_key_1_detached header_key_1 "" signature_key_1 [x01; x02; x03]
                eq_refl) as [_ Hown].
  pose proof (@verify_detached_payload Z byte primitives world
                jws_key_1_detached header_key_1 "" signature_key_1 [x01; x02; x04]
                eq_refl) as [_ Hother].
  destruct (Hown eq_refl) as [Hown_run [_ Hattached]].
  destruct (Hother eq_refl) as [Hother_run _].
  split; [|split; [|split]].
  - apply Hembedded. discriminate.
  - rewrite (Hown_run
               (JObject [("alg", JString "EdDSA");
                         ("kid", JString "did:example:abc#key-1")])
               (JString "EdDSA") "did:example:abc#key-1" "did:example:abc#key-1"
               "JsonWebKey2020" ed25519PublicKey signatureBytes
               (Crypto.ed25519Signer world) "K"%byte);
      vm_compute; reflexivity || discriminate.
  - rewrite (Hother_run
               (JObject [("alg", JString "EdDSA");
                         ("kid", JString "did:example:abc#key-1")])
               (JString "EdDSA") "did:example:abc#key-1" "did:example:abc#key-1"
               "JsonWebKey2020" ed25519PublicKey signatureBytes
               (Crypto.ed25519Signer world) "K"%byte);
      vm_compute; reflexivity || discriminate.
  - apply Hattached. reflexivity.
Defined.

(** The header segment ["bnVsbA"] decodes to [null]: reading [alg] throws. *)
Example null_header :
  Crypto.verify world {| detachedPayload := None; signature := "bnVsbA.abc.sig" |}
  = ([], Thrown TypeError).
Proof. vm_compute. reflexivity. Qed.

(** C7 as stated fails when a [detachedPayload] comes with a signature that
    embeds a payload: the header of ["e30.abc.sig"] decodes to [{}], which
    has neither [alg] nor [kid], and [verify] fails with
    [MalformedSignature]. *)
Lemma malformed_header_counterexample :
  ~ malformed_header_rejected world
      {| detachedPayload := Some [x01]; signature := "e30.abc.sig" |}.
Proof.
  intros Hclaim.
  specialize (Hclaim "e30" "abc" "sig" (JObject []) eq_refl eq_refl
                (or_introl eq_refl)).
  vm_compute in Hclaim. discriminate.
Qed.

(** C7, amended, at the same signature without [detachedPayload]. *)
Lemma verify_malformed_header_witness :
  Crypto.verify world {| detachedPayload := None; signature := "e30.abc.sig" |}
  = ([], Thrown MalformedHeader).
Proof.
  apply (@verify_malformed_header Z byte primitives world
           {| detachedPayload := None; signature := "e30.abc.sig" |}
           "e30" "abc" "sig" (JObject [])).
  - reflexivity.
  - left. reflexivity.
  - reflexivity.
  - discriminate.
  - left. reflexivity.
Defined.

(** C8 at the objects of the specification. *)
Lemma digest_key_order_independent_witness :
  Crypto.digest world (JObject [("a", JNumber 1%Z); ("b", JNumber 2%Z)])
  = Crypto.digest world (JObject [("b", JNumber 2%Z); ("a", JNumber 1%Z)]).
Proof.
  apply digest_key_order_independent.
  apply same_object with (ms' := [("a", JNumber 1%Z); ("b", JNumber 2%Z)]).
  - repeat constructor.
  - apply perm_swap.
  - repeat constructor; cbn; intuition discriminate.
Defined.

(** Single-bit flips in [jws_key_1]: in the header segment, ['S'] to ['C']
    at index 57 turns [key-1] into [key-0], and ['Z'] to ['R'] at index 12
    turns [EdDSA] into [EDDSA]; in the payload segment, ['D'] to ['E'] at
    index 64; in the signature segment, ['A'] to ['Q'] at index 155. *)
Example flip_in_kid :
  verify_mutated world {| detachedPayload := None; signature := jws_key_1 |}
    (JsString.flip_at 57 4 jws_key_1) = Thrown UnresolvableKey.
Proof. vm_compute. reflexivity. Qed.

Example flip_in_alg :
  verify_mutated world {| detachedPayload := None; signature := jws_key_1 |}
    (JsString.flip_at 12 3 jws_key_1) = Thrown TypeError.
Proof. vm_compute. reflexivity. Qed.

Example flip_in_payload :
  verify_mutated world {| detachedPayload := None; signature := jws_key_1 |}
    (JsString.flip_at 64 0 jws_key_1) = Thrown IntegrityMismatch.
Proof. vm_compute. reflexivity. Qed.

Example flip_in_signature :
  verify_mutated world {| detachedPayload := None; signature := jws_key_1 |}
    (JsString.flip_at 155 4 jws_key_1) = Thrown IntegrityMismatch.
Proof. vm_compute. reflexivity. Qed.

(** C9 as stated fails on [jws_key_1]: the flip of bit 4 of character 57
    of the header segment turns [key-1] into [key-0], which dereferences to
    no verification method, and [verify] fails with [UnresolvableKey]. *)
Lemma single_bit_mutation_counterexample :
  ~ mutation_fails_as_stated world
      {| detachedPayload := None; signature := jws_key_1 |}.
Proof.
  intros Hclaim.
  destruct (Hclaim header_key_1 "AQID" signature_key_1 "did:example:abc" 57 4
              eq_refl eq_refl) as [Hheader _].
  assert (Hi : 57 < String.length header_key_1) by (cbn; lia).
  specialize (Hheader Hi). vm_compute in Hheader.
  destruct Hheader as [Hkind | [Hkind | Hkind]]; discriminate.
Qed.

(** C9, amended, at the flip of bit 0 of the last character of the payload
    segment of [jws_key_1]. *)
Lemma single_bit_mutation_witness :
  verify_mutated world {| detachedPayload := None; signature := jws_key_1 |}
    (compact header_key_1 "AQIE" signature_key_1)
  = Thrown IntegrityMismatch.
Proof.
  destruct (@single_bit_mutation Z byte primitives world
              {| detachedPayload := None; signature := jws_key_1 |}
              header_key_1 "AQID" signature_key_1 "did:example:abc" 3 0
              world_tamper_evident eq_refl eq_refl) as [_ [Hpayload _]].
  apply Hpayload. cbn. lia.
Defined.

(** C10 at a [kid] without fragment. *)
Lemma verify_kid_without_fragment_witness :
  outcome (Crypto.verify world {| detachedPayload := None; signature := jws_solo |})
  = Returned "did:example:solo".
Proof.
  apply (@verify_kid_without_fragment Z byte primitives world
           {| detachedPayload := None; signature := jws_solo |}
           (fst (fst (segments jws_solo))) "AQID" (snd (segments jws_solo))
           "did:example:solo" (JString "EdDSA") ed25519PublicKey
           (x02 :: "K"%byte
                :: signing_input world (Crypto.ed25519Signer world)
                     "did:example:solo" [x01; x02; x03])
           (Crypto.ed25519Signer world) "K"%byte).
  - resolved.
  - vm_compute. reflexivity.
  - reflexivity.
  - reflexivity.
  - vm_compute. reflexivity.
  - reflexivity.
Defined.

End Runs.

(** * Further properties *)

(** ** [verify] after the header check *)

Section AfterHeader.

Context {number CryptoKey : Type} `{JsPrimitives number}.
Variable W : Collaborators number CryptoKey.

Import JsString.
Local Open Scope string_scope.

(** The run of [verify] once the header check has passed. *)
Lemma verify_after_header opts h p' s header_alg didUrl :
  header_accepted W opts h p' s header_alg didUrl ->
  Crypto.verify W opts
  = match deferenceDidUrl W didUrl with
    | None => ([DidResolution didUrl], Thrown KeyResolutionFailure)
    | Some resource =>
    match publicKeyJwk resource with
    | None => ([DidResolution didUrl], Thrown UnresolvableKey)
    | Some key =>
    match base64Url_toUint8Array W s with
    | None => ([DidResolution didUrl], Thrown ConvertFailure)
    | Some signatureBytes =>
    match own_property (toString header_alg ++ ":" ++ curve_label key)
            (Crypto.algorithms W) with
    | None => ([DidResolution didUrl], Thrown TypeError)
    | Some algorithm =>
        let data := list_byte_of_string (h ++ "." ++ p') in
        match jwkToCryptoKey W (Crypto.monkeyPatch key) with
        | None => ([DidResolution didUrl; KeyConversion (Crypto.monkeyPatch key)],
                   Thrown KeyConversionFailure)
        | Some k =>
            ([DidResolution didUrl; KeyConversion (Crypto.monkeyPatch key);
              Verifying k data signatureBytes],
             match signer_verify (signer algorithm) (options algorithm)
                     k data signatureBytes with
             | None => Thrown VerificationFailure
             | Some false => Thrown IntegrityMismatch
             | Some true =>
                 match didUrl with
                 | JString kid => Returned (before_first "#" kid)
                 | _ => Thrown TypeError
                 end
             end)
        end
    end end end end.
Proof.
  intros [[p [Hsplit Hpayload]] [header [Hheader [Halg Hkid]]] Htruthy Htruthy'].
  unfold Crypto.verify.
  rewrite (verify_three_segments _ Hsplit), Hsplit.
  assert (Hp : match detachedPayload opts with
               | Some d => if negb (is_empty p) then throw MalformedSignature
                           else ret (uint8Array_toBase64Url W d)
               | None => ret p
               end = (@ret number CryptoKey _ p')).
  { unfold effective_payload in Hpayload.
    destruct (detachedPayload opts) as [d|].
    - destruct (is_empty p); [|discriminate]. injection Hpayload as <-. reflexivity.
    - injection Hpayload as <-. reflexivity. }
  rewrite Hp, Hheader. cbn [bind ret attempt].
  rewrite (header_member_property _ _ Halg). cbn [bind ret].
  rewrite (header_member_property _ _ Hkid). cbn [bind ret].
  rewrite Htruthy, Htruthy'. cbn [negb orb].
  destruct (deferenceDidUrl W didUrl) as [resource|]; [|reflexivity].
  cbn [bind await].
  destruct resource as [id type [key|]|];
    cbn [isVerificationMethod publicKeyJwk negb]; try reflexivity.
  destruct (base64Url_toUint8Array W s) as [signatureBytes|]; [|reflexivity].
  cbn [attempt bind ret template]. unfold curve_label.
  destruct (own_property _ (Crypto.algorithms W)) as [algorithm|]; [|reflexivity].
  destruct (jwkToCryptoKey W (Crypto.monkeyPatch key)) as [k|]; [|reflexivity].
  cbn [await bind].
  destruct (signer_verify _ _ _ _ _) as [[|]|]; try reflexivity.
  cbn [negb].
  destruct didUrl as [| | |kid| |]; try reflexivity.
  destruct (split_first_is_before_first "#" kid) as [others ->]. reflexivity.
Qed.

(** X7. When the resolver throws, [verify] fails with
    [KeyResolutionFailure] after that one call: no key is converted and no
    signature is submitted for verification. *)
Theorem verify_resolution_failure opts h p' s header_alg didUrl :
  header_accepted W opts h p' s header_alg didUrl ->
  deferenceDidUrl W didUrl = None ->
  Crypto.verify W opts = ([DidResolution didUrl], Thrown KeyResolutionFailure).
Proof.
  intros Haccepted Hresolver.
  now rewrite (verify_after_header Haccepted), Hresolver.
Qed.

(** X8. When [kid] dereferences to something that is not a verification
    method, or to a verification method without [publicKeyJwk], [verify]
    fails with [UnresolvableKey]; the signature segment has not been decoded
    and no key has been converted. *)
Theorem verify_unresolvable_key opts h p' s header_alg didUrl resource :
  header_accepted W opts h p' s header_alg didUrl ->
  deferenceDidUrl W didUrl = Some resource ->
  isVerificationMethod resource = false \/ publicKeyJwk resource = None ->
  Crypto.verify W opts = ([DidResolution didUrl], Thrown UnresolvableKey).
Proof.
  intros Haccepted Hresolver Hresource.
  rewrite (verify_after_header Haccepted), Hresolver.
  destruct resource as [id type [key|]|]; cbn in *; try reflexivity.
  destruct Hresource; discriminate.
Qed.

(** X9. The signature segment is decoded only after the DID has been
    resolved: a signature segment that [Convert] cannot decode fails with
    [ConvertFailure], and the resolver has been called by then. *)
Theorem verify_undecodable_signature opts h p' s header_alg didUrl id type key :
  header_accepted W opts h p' s header_alg didUrl ->
  deferenceDidUrl W didUrl = Some (VerificationMethod id type (Some key)) ->
  base64Url_toUint8Array W s = None ->
  Crypto.verify W opts = ([DidResolution didUrl], Thrown ConvertFailure).
Proof.
  intros Haccepted Hresolver Hsignature.
  now rewrite (verify_after_header Haccepted), Hresolver, Hsignature.
Qed.

(** X10. A header segment that [Convert] cannot decode to a JSON value
    fails with [ConvertFailure] before any collaborator is called, once the
    signature has three segments and the detached-payload check has
    passed. *)
Theorem verify_undecodable_header opts h p p' s :
  split "." (signature opts) = [h; p; s] ->
  effective_payload W (detachedPayload opts) p = Some p' ->
  base64Url_toObject W h = None ->
  Crypto.verify W opts = ([], Thrown ConvertFailure).
Proof.
  intros Hsplit Hpayload Hheader. unfold Crypto.verify.
  rewrite (verify_three_segments _ Hsplit), Hsplit.
  unfold effective_payload in Hpayload.
  destruct (detachedPayload opts) as [d|].
  - destruct (is_empty p); [|discriminate]. cbn [negb bind ret].
    now rewrite Hheader.
  - cbn [bind ret]. now rewrite Hheader.
Qed.

(** X11. When every check passes and the signature algorithm answers
    [false], [verify] fails with [IntegrityMismatch], after one DID
    resolution, one conversion of the resolved key and one verification of
    the decoded signature over header segment, dot, effective payload
    segment. *)
Theorem verify_rejected_signature opts h p' s header_alg didUrl id type key
  signatureBytes algorithm verificationKey :
  header_accepted W opts h p' s header_alg didUrl ->
  deferenceDidUrl W didUrl = Some (VerificationMethod id type (Some key)) ->
  base64Url_toUint8Array W s = Some signatureBytes ->
  own_property (toString header_alg ++ ":" ++ curve_label key) (Crypto.algorithms W)
  = Some algorithm ->
  jwkToCryptoKey W (Crypto.monkeyPatch key) = Some verificationKey ->
  signer_verify (signer algorithm) (options algorithm) verificationKey
    (list_byte_of_string (h ++ "." ++ p')) signatureBytes = Some false ->
  Crypto.verify W opts
  = ([DidResolution didUrl; KeyConversion (Crypto.monkeyPatch key);
      Verifying verificationKey (list_byte_of_string (h ++ "." ++ p')) signatureBytes],
     Thrown IntegrityMismatch).
Proof.
  intros Haccepted Hresolver Hsignature Hentry Hkey Hlegit.
  rewrite (verify_after_header Haccepted), Hresolver. cbn [publicKeyJwk].
  rewrite Hsignature, Hentry. cbv zeta. now rewrite Hkey, Hlegit.
Qed.

End AfterHeader.

(** ** What [verify] returns *)

Section Returns.

Context {number CryptoKey : Type} `{JsPrimitives number}.
Variable W : Collaborators number CryptoKey.

Import JsString.
Local Open Scope string_scope.

Lemma before_first_excludes (c : ascii) (x : string) :
  includes c (before_first c x) = false.
Proof.
  induction x as [|a x IH]; cbn; [reflexivity|].
  destruct (Ascii.eqb a c) eqn:Ha; cbn; [reflexivity|].
  now rewrite Ha, IH.
Qed.

Lemma before_first_splits (c : ascii) (x : string) :
  x = before_first c x \/ exists rest, x = before_first c x ++ String c rest.
Proof.
  induction x as [|a x IH]; cbn; [now left|].
  destruct (Ascii.eqb_spec a c) as [->|Ha].
  - right. exists x. reflexivity.
  - destruct IH as [IH | [rest IH]].
    + left. f_equal. exact IH.
    + right. exists rest. cbn. f_equal. exact IH.
Qed.

(** X5. [verify] returns only when the signature algorithm has accepted:
    the header's [kid] is a non-empty string that dereferenced to a
    verification method with a public key, the header's [alg] and the
    key's [crv] name a registry entry, and that entry's algorithm answered
    [true] for the decoded signature segment over header segment, dot,
    effective payload segment, under the converted key.  The run then
    consists of exactly one DID resolution, one key conversion and one
    verification. *)
Theorem verify_returns_only_accepted (opts : VerifyOptions) (did : string) :
  outcome (Crypto.verify W opts) = Returned did ->
  exists h p' s header_alg kid key signatureBytes algorithm verificationKey,
    key_resolved W opts h p' s header_alg kid key
    /\ base64Url_toUint8Array W s = Some signatureBytes
    /\ own_property (toString header_alg ++ ":" ++ curve_label key)
         (Crypto.algorithms W) = Some algorithm
    /\ jwkToCryptoKey W (Crypto.monkeyPatch key) = Some verificationKey
    /\ signer_verify (signer algorithm) (options algorithm) verificationKey
         (list_byte_of_string (h ++ "." ++ p')) signatureBytes = Some true
    /\ calls (Crypto.verify W opts)
       = [DidResolution (JString kid); KeyConversion (Crypto.monkeyPatch key);
          Verifying verificationKey (list_byte_of_string (h ++ "." ++ p'))
            signatureBytes].
Proof.
  intros Hrun.
  destruct (verify_returned W opts Hrun)
    as (h & p' & s & header_alg & kid & key & signatureBytes & algorithm
        & verificationKey & Hresolved & Hsignature & Hentry & Hkey & Hlegit & _).
  exists h, p', s, header_alg, kid, key, signatureBytes, algorithm, verificationKey.
  repeat (split; [assumption|]).
  rewrite (verify_after_resolution Hresolved), Hsignature, Hentry.
  cbv zeta. now rewrite Hkey.
Qed.

(** X6. The string [verify] returns has no ['#']: the header's [kid] is
    either that string, or that string followed by ['#'] and a fragment.
    Nothing makes it non-empty. *)
Theorem verify_returns_did_of_kid (opts : VerifyOptions) (did : string) :
  outcome (Crypto.verify W opts) = Returned did ->
  includes "#" did = false
  /\ exists h p' s header_alg kid key,
       key_resolved W opts h p' s header_alg kid key
       /\ (kid = did \/ exists fragment, kid = did ++ "#" ++ fragment).
Proof.
  intros Hrun.
  destruct (verify_returned W opts Hrun)
    as (h & p' & s & header_alg & kid & key & _ & _ & _ & Hresolved & _ & _ & _ & _ & ->).
  split; [apply before_first_excludes|].
  exists h, p', s, header_alg, kid, key. split; [assumption|].
  destruct (before_first_splits "#" kid) as [Hkid | [fragment Hkid]].
  - left. now symmetry.
  - right. exists fragment. exact Hkid.
Qed.

End Returns.

(** ** The calls [sign] and [verify] make *)

Section Calls.

Context {number CryptoKey : Type} `{JsPrimitives number}.
Variable W : Collaborators number CryptoKey.

Import JsString.
Local Open Scope string_scope.

Lemma every_call_pure {A} P (m : M number CryptoKey A) :
  calls m = [] -> every_call P m.
Proof. unfold every_call. intros ->. constructor. Qed.

Lemma every_call_await {A} (P : Event number CryptoKey -> Prop) ev (r : option A) e :
  P ev -> every_call P (await ev r e).
Proof. intros Hev. repeat constructor. exact Hev. Qed.

Lemma every_call_bind {A B} P (m : M number CryptoKey A)
  (f : A -> M number CryptoKey B) :
  every_call P m -> (forall a, every_call P (f a)) -> every_call P (bind m f).
Proof.
  unfold every_call, bind, calls.
  destruct m as [events [a | e]]; cbn [fst]; intros Hm Hf; [|exact Hm].
  specialize (Hf a). destruct (f a) as [events' r]. cbn [fst] in *.
  apply Forall_app. auto.
Qed.

Lemma calls_at_most_pure {A} n (m : M number CryptoKey A) :
  calls m = [] -> calls_at_most n m.
Proof. unfold calls_at_most. intros ->. cbn. lia. Qed.

Lemma calls_at_most_await {A} n ev (r : option A) e :
  calls_at_most (S n) (await (number := number) (CryptoKey := CryptoKey) ev r e).
Proof. unfold calls_at_most. cbn. lia. Qed.

Lemma calls_at_most_bind_pure {A B} n (m : M number CryptoKey A)
  (f : A -> M number CryptoKey B) :
  calls m = [] -> (forall a, calls_at_most n (f a)) -> calls_at_most n (bind m f).
Proof.
  unfold calls_at_most, bind, calls.
  destruct m as [events [a | e]]; cbn [fst]; intros -> Hf; [|cbn; lia].
  specialize (Hf a). destruct (f a) as [events' r]. exact Hf.
Qed.

Lemma calls_at_most_bind_await {A B} n ev (r : option A) e
  (f : A -> M number CryptoKey B) :
  (forall a, calls_at_most n (f a)) -> calls_at_most (S n) (bind (await ev r e) f).
Proof.
  unfold calls_at_most, bind, await, calls. intros Hf.
  destruct r as [a|]; cbn [fst]; [|cbn; lia].
  specialize (Hf a). destruct (f a) as [events' r]. cbn in *. lia.
Qed.

Lemma property_calls (header : json number) (name : string) :
  calls (Crypto.property (CryptoKey := CryptoKey) header name) = [].
Proof. destruct header; reflexivity. Qed.

Lemma attempt_calls {A} (r : option A) (e : Error) :
  calls (attempt (number := number) (CryptoKey := CryptoKey) r e) = [].
Proof. destruct r; reflexivity. Qed.

Ltac pure_calls :=
  repeat match goal with
         | |- calls (match ?x with _ => _ end) = [] => destruct x
         | |- calls (if ?x then _ else _) = [] => destruct x
         end;
  first [reflexivity | apply property_calls | apply attempt_calls].

Ltac every_call :=
  repeat first
    [ apply every_call_await; cbn; tauto
    | apply every_call_bind; [|intros ?]
    | apply every_call_pure; pure_calls
    | match goal with
      | |- every_call _ (match ?x with _ => _ end) => destruct x
      | |- every_call _ (if ?x then _ else _) => destruct x
      end ].

Ltac calls_at_most :=
  repeat first
    [ apply calls_at_most_pure; pure_calls
    | apply calls_at_most_await
    | apply calls_at_most_bind_await; intros ?
    | apply calls_at_most_bind_pure; [pure_calls | intros ?]
    | match goal with
      | |- calls_at_most _ (match ?x with _ => _ end) => destruct x
      | |- calls_at_most _ (if ?x then _ else _) => destruct x
      end ].

(** X12. Whatever the signature, [verify] never signs; every key it hands
    to the key conversion is marked [ext: 'true'] and
    [key_ops: ['verify']]; and it makes at most three calls to its
    collaborators. *)
Theorem verify_calls (opts : VerifyOptions) :
  every_call verifier_call (Crypto.verify W opts)
  /\ calls_at_most 3 (Crypto.verify W opts).
Proof.
  unfold Crypto.verify. split.
  - every_call.
  - calls_at_most.
Qed.

(** X13. Whatever the options, [sign] never resolves a DID and never
    verifies; the only key it converts is the caller's private key, as it
    was handed over; and it makes at most two calls to its collaborators. *)
Theorem sign_calls (opts : SignOptions) :
  every_call (signer_call opts) (Crypto.sign W opts)
  /\ calls_at_most 2 (Crypto.sign W opts).
Proof.
  unfold Crypto.sign. split.
  - every_call.
  - calls_at_most.
Qed.

End Calls.

(** ** The registry and what [sign] returns *)

Section Signing.

Context {number CryptoKey : Type} `{JsPrimitives number}.
Variable W : Collaborators number CryptoKey.

Import JsString.
Local Open Scope string_scope.

(** X1. Every key of the registry is made of the labels of the entry it
    leads to: both labels, or the [alg] label alone, or the [crv] label
    alone; no entry has an empty label, and every entry is found again
    under its two labels. *)
Theorem registry_keys_consistent (algorithmId : string)
  (algorithm : SignerValue CryptoKey) :
  own_property algorithmId (Crypto.algorithms W) = Some algorithm ->
  (algorithmId = alg algorithm ++ ":" ++ crv algorithm
   \/ algorithmId = alg algorithm ++ ":"
   \/ algorithmId = ":" ++ crv algorithm)
  /\ alg algorithm <> "" /\ crv algorithm <> ""
  /\ own_property (alg algorithm ++ ":" ++ crv algorithm) (Crypto.algorithms W)
     = Some algorithm.
Proof.
  unfold Crypto.algorithms. cbn [own_property].
  repeat match goal with
         | |- context [String.eqb ?a algorithmId] =>
             destruct (String.eqb_spec a algorithmId) as [<- | ?]
         end; intros Hentry; inversion Hentry; subst; cbn;
    repeat split; auto; discriminate.
Qed.

Lemma sign_returned (opts : SignOptions) (jws : string) :
  outcome (Crypto.sign W opts) = Returned jws ->
  exists algorithm key signatureBytes,
    own_property (declared_pair (privateKeyJwk opts)) (Crypto.algorithms W)
    = Some algorithm
    /\ jwkToCryptoKey W (privateKeyJwk opts) = Some key
    /\ signer_sign (signer algorithm) (options algorithm) key
         (signing_input W algorithm (kid opts) (payload opts)) = Some signatureBytes
    /\ jws = compact (object_toBase64Url W (protected_header algorithm (kid opts)))
               (if detached opts then "" else uint8Array_toBase64Url W (payload opts))
               (uint8Array_toBase64Url W signatureBytes)
    /\ calls (Crypto.sign W opts)
       = [KeyConversion (privateKeyJwk opts);
          Signing key (signing_input W algorithm (kid opts) (payload opts))].
Proof.
  destruct (own_property (declared_pair (privateKeyJwk opts)) (Crypto.algorithms W))
    as [algorithm|] eqn:Hentry.
  - rewrite (sign_run W opts Hentry).
    destruct (jwkToCryptoKey W (privateKeyJwk opts)) as [key|]; [|discriminate].
    destruct (signer_sign _ _ _ _) as [signatureBytes|] eqn:Hsigned; [|discriminate].
    cbn [outcome snd calls fst]. intros Hjws. injection Hjws as <-.
    exists algorithm, key, signatureBytes. repeat split; try assumption.
    destruct (detached opts); reflexivity.
  - unfold Crypto.sign. unfold declared_pair in Hentry.
    rewrite !or_empty_default, Hentry. discriminate.
Qed.

(** X2. What [sign] returns is built from what the signature algorithm
    produced: the key's declared pair names a registry entry, the header
    carries that entry's own [alg] label (whatever the key declares) and
    the caller's [kid], the algorithm signed header segment, dot, payload
    segment under the converted private key, and the result is the header
    segment, the payload segment (empty when detached) and the encoded
    signature, joined by dots.  The run is one key conversion followed by
    one signing. *)
Theorem sign_returns_signed (opts : SignOptions) (jws : string) :
  outcome (Crypto.sign W opts) = Returned jws ->
  exists algorithm key signatureBytes,
    own_property (declared_pair (privateKeyJwk opts)) (Crypto.algorithms W)
    = Some algorithm
    /\ jwkToCryptoKey W (privateKeyJwk opts) = Some key
    /\ signer_sign (signer algorithm) (options algorithm) key
         (signing_input W algorithm (kid opts) (payload opts)) = Some signatureBytes
    /\ jws = compact (object_toBase64Url W (protected_header algorithm (kid opts)))
               (if detached opts then "" else uint8Array_toBase64Url W (payload opts))
               (uint8Array_toBase64Url W signatureBytes)
    /\ calls (Crypto.sign W opts)
       = [KeyConversion (privateKeyJwk opts);
          Signing key (signing_input W algorithm (kid opts) (payload opts))].
Proof. apply sign_returned. Qed.

(** X3. With a registered key: when the key conversion throws, [sign]
    fails with [KeyConversionFailure] and the signature algorithm has not
    been called; when the signature algorithm throws, [sign] fails with
    [SigningFailure]. *)
Theorem sign_collaborator_failure (opts : SignOptions)
  (algorithm : SignerValue CryptoKey) :
  own_property (declared_pair (privateKeyJwk opts)) (Crypto.algorithms W)
  = Some algorithm ->
  (jwkToCryptoKey W (privateKeyJwk opts) = None ->
   Crypto.sign W opts
   = ([KeyConversion (privateKeyJwk opts)], Thrown KeyConversionFailure))
  /\ (forall key,
         jwkToCryptoKey W (privateKeyJwk opts) = Some key ->
         signer_sign (signer algorithm) (options algorithm) key
           (signing_input W algorithm (kid opts) (payload opts)) = None ->
         Crypto.sign W opts
         = ([KeyConversion (privateKeyJwk opts);
             Signing key (signing_input W algorithm (kid opts) (payload opts))],
            Thrown SigningFailure)).
Proof.
  intros Hentry. rewrite (sign_run W opts Hentry). split.
  - intros ->. reflexivity.
  - intros key -> ->. reflexivity.
Qed.

(** X4. [detached] changes nothing but the payload segment of the result:
    the two runs make the same calls and fail alike, and when the attached
    run returns header, payload and signature segments, the detached run
    returns the same header and signature segments around an empty payload
    segment. *)
Theorem sign_detached_drops_payload (signedPayload : list byte) (key : Jwk)
  (keyId : string) :
  let attached := Crypto.sign W {| detached := false; payload := signedPayload;
                                   privateKeyJwk := key; kid := keyId |} in
  let alone := Crypto.sign W {| detached := true; payload := signedPayload;
                                privateKeyJwk := key; kid := keyId |} in
  calls alone = calls attached
  /\ (forall e, outcome alone = Thrown e <-> outcome attached = Thrown e)
  /\ (forall jws, outcome attached = Returned jws ->
        exists h s,
          jws = compact h (uint8Array_toBase64Url W signedPayload) s
          /\ outcome alone = Returned (compact h "" s)).
Proof.
  cbv zeta.
  destruct (own_property (declared_pair key) (Crypto.algorithms W))
    as [algorithm|] eqn:Hentry.
  - rewrite !sign_run with (algorithm := algorithm) by exact Hentry.
    cbn [privateKeyJwk kid payload detached].
    destruct (jwkToCryptoKey W key) as [k|]; cbn [calls fst outcome snd].
    + destruct (signer_sign _ _ _ _) as [signatureBytes|].
      * repeat split; try discriminate.
        intros jws Hjws. injection Hjws as <-. eexists. eexists.
        split; reflexivity.
      * repeat split; try tauto. discriminate.
    + repeat split; try tauto. discriminate.
  - unfold Crypto.sign. unfold declared_pair in Hentry.
    cbn [privateKeyJwk]. rewrite !or_empty_default, Hentry.
    repeat split; try tauto. discriminate.
Qed.

End Signing.

(** ** Signing, then verifying otherwise than signed *)

Section Misuse.

Context {number CryptoKey : Type} `{JsPrimitives number}.
Variable W : Collaborators number CryptoKey.

Import JsString.
Local Open Scope string_scope.

Lemma split_compact_three (h p s a b c : string) :
  split "." (compact h p s) = [a; b; c] -> a = h /\ b = p /\ c = s.
Proof.
  intros Hsplit.
  destruct (includes "." h || includes "." p || includes "." s) eqn:Hdot.
  - exfalso. apply (compact_with_dot h p s Hdot). now rewrite Hsplit.
  - apply orb_false_elim in Hdot as [Hdot Hs].
    apply orb_false_elim in Hdot as [Hh Hp].
    unfold compact in Hsplit. rewrite (split_three _ _ _ Hh Hp Hs) in Hsplit.
    now injection Hsplit as <- <- <-.
Qed.

(** X14. [sign] does not examine [kid]: with an empty [kid] it signs as
    usual, and [verify] rejects what it returned with [MalformedHeader],
    before any collaborator is called. *)
Theorem sign_empty_kid_unverifiable (signedPayload signatureBytes : list byte)
  (key : Jwk) (algorithm : SignerValue CryptoKey) (signingKey : CryptoKey)
  (supplied : option (list byte)) :
  own_property (declared_pair key) (Crypto.algorithms W) = Some algorithm ->
  jwkToCryptoKey W key = Some signingKey ->
  signer_sign (signer algorithm) (options algorithm) signingKey
    (signing_input W algorithm "" signedPayload) = Some signatureBytes ->
  converts_back W (protected_header algorithm "") signedPayload signatureBytes ->
  exists jws,
    outcome (Crypto.sign W {| detached := match supplied with
                                          | Some _ => true
                                          | None => false
                                          end;
                              payload := signedPayload;
                              privateKeyJwk := key; kid := "" |})
    = Returned jws
    /\ Crypto.verify W {| detachedPayload := supplied; signature := jws |}
       = ([], Thrown MalformedHeader).
Proof.
  intros Hentry Hkey Hsigned [Hheader _ Hh Hp Hs].
  rewrite sign_run with (algorithm := algorithm) by exact Hentry.
  cbn [privateKeyJwk kid payload detached].
  rewrite Hkey, Hsigned. cbn [outcome snd].
  eexists. split; [reflexivity|].
  unfold Crypto.verify. cbn [signature detachedPayload].
  destruct supplied as [d|].
  - change (?h ++ ".." ++ ?s) with (h ++ "." ++ "" ++ "." ++ s).
    rewrite three_segments_not_empty,
      (split_three _ "" _ Hh (eq_refl : includes "." "" = false) Hs).
    cbn [is_empty negb bind ret]. rewrite Hheader.
    cbn [attempt bind ret Crypto.property protected_header]. cbn.
    rewrite orb_true_r. reflexivity.
  - rewrite three_segments_not_empty, (split_three _ _ _ Hh Hp Hs).
    cbn [bind ret]. rewrite Hheader.
    cbn [attempt bind ret Crypto.property protected_header]. cbn.
    rewrite orb_true_r. reflexivity.
Qed.

(** X15. A signature with its payload attached cannot be verified as a
    detached one: whatever [detachedPayload] is supplied with it, the
    original payload included, [verify] fails with [MalformedSignature]
    before any collaborator is called, as soon as the payload segment is not
    empty. *)
Theorem attached_verified_as_detached (opts : SignOptions) (jws : string)
  (supplied : list byte) :
  detached opts = false ->
  outcome (Crypto.sign W opts) = Returned jws ->
  uint8Array_toBase64Url W (payload opts) <> "" ->
  Crypto.verify W {| detachedPayload := Some supplied; signature := jws |}
  = ([], Thrown MalformedSignature).
Proof.
  intros Hattached Hrun Hpayload.
  destruct (sign_returned W opts Hrun)
    as (algorithm & key & signatureBytes & _ & _ & _ & -> & _).
  rewrite Hattached. unfold Crypto.verify.
  cbn [signature detachedPayload].
  unfold compact at 1. rewrite three_segments_not_empty.
  destruct (split "." (compact _ _ _)) as [|a [|b [|c [|d l]]]] eqn:Hsplit;
    try reflexivity.
  apply split_compact_three in Hsplit as [_ [-> _]].
  destruct (uint8Array_toBase64Url W (payload opts)); [contradiction | reflexivity].
Qed.

(** X16. A detached signature cannot be verified without its payload:
    [verify] without [detachedPayload] rebuilds the signed data from the
    empty payload segment and, when the payload's encoding is not empty and
    the signature algorithm accepts the signature for the signed data only,
    fails with [IntegrityMismatch]. *)
Theorem detached_verified_as_attached (privateKey publicKey : Jwk) (keyId : string)
  (message signatureBytes : list byte) (algorithm : SignerValue CryptoKey)
  (signingKey verificationKey : CryptoKey) :
  own_property (declared_pair privateKey) (Crypto.algorithms W) = Some algorithm ->
  keyId <> "" ->
  jwkToCryptoKey W privateKey = Some signingKey ->
  signer_sign (signer algorithm) (options algorithm) signingKey
    (signing_input W algorithm keyId message) = Some signatureBytes ->
  published_key W algorithm keyId signingKey publicKey verificationKey ->
  converts_back W (protected_header algorithm keyId) message signatureBytes ->
  uint8Array_toBase64Url W message <> "" ->
  rejects_other_data algorithm verificationKey
    (signing_input W algorithm keyId message) signatureBytes ->
  exists jws,
    outcome (Crypto.sign W {| detached := true; payload := message;
                              privateKeyJwk := privateKey; kid := keyId |})
    = Returned jws
    /\ outcome (Crypto.verify W {| detachedPayload := None; signature := jws |})
       = Thrown IntegrityMismatch.
Proof.
  intros Hentry Hkid Hkey Hsigned Hpublished Hconvert Hpayload Hrejects.
  rewrite sign_run with (algorithm := algorithm) by exact Hentry.
  cbn [privateKeyJwk kid payload detached].
  rewrite Hkey, Hsigned. cbn [outcome snd].
  eexists. split; [reflexivity|].
  change (?h ++ ".." ++ ?s) with (h ++ "." ++ "" ++ "." ++ s).
  erewrite signed_verify_run with (p' := ""); eauto.
  rewrite Hrejects; [reflexivity|].
  unfold signing_input. intros Heq.
  apply list_byte_of_string_injective, append_cancel_left in Heq.
  injection Heq as Heq. now apply Hpayload.
Qed.

End Misuse.

(** ** The [submitClose] handler *)

Section Handler.

Variables Request Body Message CallbackResult ExchangesApi : Type.
Variable body : Request -> Body.
Variable Message_parse : Body -> Message + string.
Variable isClose : Message -> bool.

Local Open Scope string_scope.

Lemma own_calls_after_invocation (message : Message) (made : list ResponseCall)
  (rest : list (HandlerEvent Message)) :
  own_calls (Invoked message :: map (@InCallback Message) made ++ rest)
  = own_calls rest.
Proof.
  unfold own_calls. cbn [flat_map app].
  induction made as [|c made IH]; cbn; [reflexivity | exact IH].
Qed.

Lemma invocations_after_invocation (message : Message) (made : list ResponseCall)
  (rest : list (HandlerEvent Message)) :
  invocations (Invoked message :: map (@InCallback Message) made ++ rest)
  = message :: invocations rest.
Proof.
  unfold invocations. cbn [flat_map app]. f_equal.
  induction made as [|c made IH]; cbn; [reflexivity | exact IH].
Qed.

(** X17. The callback is invoked only for a body that parses to a close
    message, then exactly once and with that message; a body that does not
    parse, or that parses to another kind of message, never reaches it. *)
Theorem submitClose_invokes_callback
  (opts : SubmitCloseOpts Request Message CallbackResult ExchangesApi) (req : Request) :
  invocations (submitClose body Message_parse isClose opts req)
  = match Message_parse (body req), callback opts with
    | inl message, Some _ => if isClose message then [message] else []
    | _, _ => []
    end.
Proof.
  unfold submitClose.
  destruct (Message_parse (body req)) as [message | e]; [|reflexivity].
  destruct (callback opts) as [cb|], (isClose message); try reflexivity.
  cbn [negb]. destruct (cb req message) as [made [result|]];
    now rewrite invocations_after_invocation.
Qed.

(** X18. The handler answers 202 exactly when the body parses to a close
    message and either there is no callback or the callback returns. *)
Theorem submitClose_accepts
  (opts : SubmitCloseOpts Request Message CallbackResult ExchangesApi) (req : Request) :
  own_calls (submitClose body Message_parse isClose opts req) = [res_sendStatus 202]
  <-> exists message,
        Message_parse (body req) = inl message /\ isClose message = true
        /\ (callback opts = None
            \/ exists cb made result,
                 callback opts = Some cb /\ cb req message = (made, Some result)).
Proof.
  unfold submitClose.
  destruct (Message_parse (body req)) as [message | e] eqn:Hparse.
  - destruct (isClose message) eqn:Hclose; cbn [negb].
    + destruct (callback opts) as [cb|] eqn:Hcallback.
      * destruct (cb req message) as [made [result|]] eqn:Hrun;
          rewrite own_calls_after_invocation; cbn.
        -- split; [intros _ | reflexivity].
           exists message. repeat split; auto. right. now exists cb, made, result.
        -- split; [discriminate|].
           intros (m & Hm & _ & [Hnone | (cb' & made' & result' & Hcb & Hrun')]);
             [discriminate|].
           injection Hm as <-. injection Hcb as <-. congruence.
      * cbn. split; [intros _ | reflexivity].
        exists message. auto.
    + cbn. split; [discriminate|].
      intros (m & Hm & Hclose' & _). injection Hm as <-. congruence.
  - cbn. split; [discriminate|].
    intros (m & Hm & _). discriminate.
Qed.

(** X19. The handler answers 400 with one error detail exactly when the
    body does not parse, the detail being the message of the error
    [Message.parse] threw, or when it parses to a message that is not a
    close, the detail being the fixed text.  The callback plays no part. *)
Theorem submitClose_rejects
  (opts : SubmitCloseOpts Request Message CallbackResult ExchangesApi) (req : Request) (text : string) :
  own_calls (submitClose body Message_parse isClose opts req) = [res_status 400; res_json [{| detail := text |}]]
  <-> Message_parse (body req) = inr text
      \/ exists message,
           Message_parse (body req) = inl message /\ isClose message = false
           /\ text = "expected request body to be a valid close".
Proof.
  unfold submitClose.
  destruct (Message_parse (body req)) as [message | e] eqn:Hparse.
  - destruct (isClose message) eqn:Hclose; cbn [negb].
    + destruct (callback opts) as [cb|].
      * destruct (cb req message) as [made [result|]];
          rewrite own_calls_after_invocation; cbn;
          (split; [discriminate|]);
          intros [Hfail | (m & Hm & Hclose' & _)]; try discriminate;
          injection Hm as <-; congruence.
      * cbn. split; [discriminate|].
        intros [Hfail | (m & Hm & Hclose' & _)]; try discriminate.
        injection Hm as <-. congruence.
    + cbn. split.
      * intros Hcalls. injection Hcalls as <-. right. now exists message.
      * intros [Hfail | (m & _ & _ & ->)]; [discriminate | reflexivity].
  - cbn. split.
    + intros Hcalls. injection Hcalls as <-. now left.
    + intros [Hfail | (m & Hm & _)]; [|discriminate].
      injection Hfail as <-. reflexivity.
Qed.

(** X20. The handler sends no response at all exactly when the callback
    throws: the error is swallowed and no status is sent after it. *)
Theorem submitClose_silent
  (opts : SubmitCloseOpts Request Message CallbackResult ExchangesApi) (req : Request) :
  own_calls (submitClose body Message_parse isClose opts req) = []
  <-> exists message cb made,
        Message_parse (body req) = inl message /\ isClose message = true
        /\ callback opts = Some cb /\ cb req message = (made, None).
Proof.
  unfold submitClose.
  destruct (Message_parse (body req)) as [message | e] eqn:Hparse.
  - destruct (isClose message) eqn:Hclose; cbn [negb].
    + destruct (callback opts) as [cb|] eqn:Hcallback.
      * destruct (cb req message) as [made [result|]] eqn:Hrun;
          rewrite own_calls_after_invocation; cbn.
        -- split; [discriminate|].
           intros (m & cb' & made' & Hm & _ & Hcb & Hrun').
           injection Hm as <-. injection Hcb as <-. congruence.
        -- split; [intros _ | reflexivity].
           now exists message, cb, made.
      * cbn. split; [discriminate|].
        intros (m & cb' & made' & _ & _ & Hcb & _). discriminate.
    + cbn. split; [discriminate|].
      intros (m & cb' & made' & Hm & Hclose' & _). injection Hm as <-. congruence.
  - cbn. split; [discriminate|].
    intros (m & cb' & made' & Hm & _). discriminate.
Qed.

End Handler.

(** ** The further properties on the test doubles *)

Section FurtherRuns.

Import Double Cases.
Local Open Scope string_scope.

Ltac accepted :=
  constructor;
  [ eexists; split; vm_compute; reflexivity
  | eexists; repeat split; vm_compute; reflexivity
  | reflexivity
  | reflexivity ].

Ltac resolved :=
  constructor;
  [ eexists; split; vm_compute; reflexivity
  | eexists; repeat split; vm_compute; reflexivity
  | reflexivity
  | discriminate
  | eexists; eexists; vm_compute; reflexivity ].

(** X1 at the key of the registry that has no [alg] label. *)
Lemma registry_keys_consistent_witness :
  (":secp256k1" = "ES256K:secp256k1" \/ ":secp256k1" = "ES256K:"
   \/ ":secp256k1" = ":secp256k1")
  /\ "ES256K" <> "" /\ "secp256k1" <> ""
  /\ own_property "ES256K:secp256k1" (Crypto.algorithms world)
     = Some (Crypto.secp256k1Signer world).
Proof.
  apply (@registry_keys_consistent Z byte world ":secp256k1"
           (Crypto.secp256k1Signer world)).
  reflexivity.
Defined.

(** X2 at the signature of the bytes 1, 2, 3 by [ed25519Key]. *)
Lemma sign_returns_signed_witness :
  let opts := {| detached := false; payload := [x01; x02; x03];
                 privateKeyJwk := ed25519Key; kid := "did:example:abc#key-1" |} in
  exists algorithm key signatureBytes,
    own_property (declared_pair (privateKeyJwk opts)) (Crypto.algorithms world)
    = Some algorithm
    /\ jwkToCryptoKey world (privateKeyJwk opts) = Some key
    /\ signer_sign (signer algorithm) (options algorithm) key
         (signing_input world algorithm (kid opts) (payload opts)) = Some signatureBytes
    /\ jws_key_1
       = compact (object_toBase64Url world (protected_header algorithm (kid opts)))
           (if detached opts then "" else uint8Array_toBase64Url world (payload opts))
           (uint8Array_toBase64Url world signatureBytes)
    /\ calls (Crypto.sign world opts)
       = [KeyConversion (privateKeyJwk opts);
          Signing key (signing_input world algorithm (kid opts) (payload opts))].
Proof.
  intros opts.
  apply (@sign_returns_signed Z byte world opts jws_key_1).
  vm_compute. reflexivity.
Defined.

(** X3 at a key the conversion rejects, and at an algorithm that throws. *)
Lemma sign_collaborator_failure_witness :
  Crypto.sign world {| detached := false; payload := [x01; x02; x03];
                       privateKeyJwk := ed25519KeyWithoutX;
                       kid := "did:example:abc#key-1" |}
  = ([KeyConversion ed25519KeyWithoutX], Thrown KeyConversionFailure)
  /\ outcome (Crypto.sign faulty_world
                {| detached := false; payload := [x01; x02; x03];
                   privateKeyJwk := ed25519Key; kid := "did:example:abc#key-1" |})
     = Thrown SigningFailure.
Proof.
  split.
  - apply (proj1 (@sign_collaborator_failure Z byte world
                    {| detached := false; payload := [x01; x02; x03];
                       privateKeyJwk := ed25519KeyWithoutX;
                       kid := "did:example:abc#key-1" |}
                    (Crypto.ed25519Signer world) eq_refl)).
    reflexivity.
  - rewrite (proj2 (@sign_collaborator_failure Z byte faulty_world
                      {| detached := false; payload := [x01; x02; x03];
                         privateKeyJwk := ed25519Key;
                         kid := "did:example:abc#key-1" |}
                      (Crypto.ed25519Signer faulty_world) eq_refl)
               "K"%byte eq_refl eq_refl).
    reflexivity.
Defined.

(** X5 at [jws_key_1]. *)
Lemma verify_returns_only_accepted_witness :
  let opts := {| detachedPayload := None; signature := jws_key_1 |} in
  exists h p' s header_alg kid key signatureBytes algorithm verificationKey,
    key_resolved world opts h p' s header_alg kid key
    /\ base64Url_toUint8Array world s = Some signatureBytes
    /\ own_property (toString header_alg ++ ":" ++ curve_label key)
         (Crypto.algorithms world) = Some algorithm
    /\ jwkToCryptoKey world (Crypto.monkeyPatch key) = Some verificationKey
    /\ signer_verify (signer algorithm) (options algorithm) verificationKey
         (list_byte_of_string (h ++ "." ++ p')) signatureBytes = Some true
    /\ calls (Crypto.verify world opts)
       = [DidResolution (JString kid); KeyConversion (Crypto.monkeyPatch key);
          Verifying verificationKey (list_byte_of_string (h ++ "." ++ p'))
            signatureBytes].
Proof.
  intros opts.
  apply (@verify_returns_only_accepted Z byte primitives world opts "did:example:abc").
  vm_compute. reflexivity.
Defined.

(** X6 at [jws_key_1]. *)
Lemma verify_returns_did_of_kid_witness :
  let opts := {| detachedPayload := None; signature := jws_key_1 |} in
  JsString.includes "#" "did:example:abc" = false
  /\ exists h p' s header_alg kid key,
       key_resolved world opts h p' s header_alg kid key
       /\ (kid = "did:example:abc"
           \/ exists fragment, kid = "did:example:abc" ++ "#" ++ fragment).
Proof.
  intros opts.
  apply (@verify_returns_did_of_kid Z byte primitives world opts "did:example:abc").
  vm_compute. reflexivity.
Defined.

(** X7 at a [kid] of a DID the resolver does not know. *)
Lemma verify_resolution_failure_witness :
  Crypto.verify world {| detachedPayload := None; signature := jws_unknown_did |}
  = ([DidResolution (JString "did:web:nowhere#key-1")], Thrown KeyResolutionFailure).
Proof.
  apply (@verify_resolution_failure Z byte primitives world
           {| detachedPayload := None; signature := jws_unknown_did |}
           (fst (fst (segments jws_unknown_did))) "AQID" "AQID"
           (JString "EdDSA") (JString "did:web:nowhere#key-1")).
  - accepted.
  - reflexivity.
Defined.

(** X8 at a [kid] that names a service, and at one that names a
    verification method without key. *)
Lemma verify_unresolvable_key_witness :
  Crypto.verify world {| detachedPayload := None; signature := jws_service |}
  = ([DidResolution (JString "did:example:abc#service-1")], Thrown UnresolvableKey)
  /\ Crypto.verify world {| detachedPayload := None; signature := jws_key_3 |}
     = ([DidResolution (JString "did:example:abc#key-3")], Thrown UnresolvableKey).
Proof.
  split.
  - apply (@verify_unresolvable_key Z byte primitives world
             {| detachedPayload := None; signature := jws_service |}
             (fst (fst (segments jws_service))) "AQID" "AQID"
             (JString "EdDSA") (JString "did:example:abc#service-1") OtherResource).
    + accepted.
    + reflexivity.
    + left. reflexivity.
  - apply (@verify_unresolvable_key Z byte primitives world
             {| detachedPayload := None; signature := jws_key_3 |}
             (fst (fst (segments jws_key_3))) "AQID" "AQID"
             (JString "EdDSA") (JString "did:example:abc#key-3")
             (VerificationMethod "did:example:abc#key-3" "JsonWebKey2020" None)).
    + accepted.
    + reflexivity.
    + right. reflexivity.
Defined.

(** X9 at a signature segment outside the base64url alphabet. *)
Lemma verify_undecodable_signature_witness :
  Crypto.verify world {| detachedPayload := None; signature := jws_bad_signature |}
  = ([DidResolution (JString "did:example:abc#key-1")], Thrown ConvertFailure).
Proof.
  apply (@verify_undecodable_signature Z byte primitives world
           {| detachedPayload := None; signature := jws_bad_signature |}
           header_key_1 "AQID" "!!!" (JString "EdDSA")
           (JString "did:example:abc#key-1")
           "did:example:abc#key-1" "JsonWebKey2020" ed25519PublicKey).
  - accepted.
  - reflexivity.
  - reflexivity.
Defined.

(** X10 at a header segment outside the base64url alphabet. *)
Lemma verify_undecodable_header_witness :
  Crypto.verify world {| detachedPayload := None; signature := jws_bad_header |}
  = ([], Thrown ConvertFailure).
Proof.
  apply (@verify_undecodable_header Z byte primitives world
           {| detachedPayload := None; signature := jws_bad_header |}
           "!!!" "AQID" "AQID" "AQID"); reflexivity.
Defined.

(** X11 at [jws_key_1] with another payload segment. *)
Lemma verify_rejected_signature_witness :
  outcome (Crypto.verify world
             {| detachedPayload := None; signature := jws_other_payload |})
  = Thrown IntegrityMismatch.
Proof.
  erewrite (@verify_rejected_signature Z byte primitives world
              {| detachedPayload := None; signature := jws_other_payload |}
              header_key_1 "AQIE" signature_key_1 (JString "EdDSA")
              (JString "did:example:abc#key-1")
              "did:example:abc#key-1" "JsonWebKey2020" ed25519PublicKey
              _ (Crypto.ed25519Signer world) "K"%byte).
  - reflexivity.
  - accepted.
  - reflexivity.
  - vm_compute. reflexivity.
  - reflexivity.
  - reflexivity.
  - vm_compute. reflexivity.
Defined.

(** X14 at [ed25519Key] and the bytes 1, 2, 3. *)
Lemma sign_empty_kid_unverifiable_witness :
  exists jws,
    outcome (Crypto.sign world {| detached := false; payload := [x01; x02; x03];
                                  privateKeyJwk := ed25519Key; kid := "" |})
    = Returned jws
    /\ Crypto.verify world {| detachedPayload := None; signature := jws |}
       = ([], Thrown MalformedHeader).
Proof.
  apply (@sign_empty_kid_unverifiable Z byte primitives world
           [x01; x02; x03]
           (x02 :: "K"%byte
                :: signing_input world (Crypto.ed25519Signer world) "" [x01; x02; x03])
           ed25519Key (Crypto.ed25519Signer world) "K"%byte None).
  - reflexivity.
  - reflexivity.
  - reflexivity.
  - constructor; vm_compute; reflexivity.
Defined.

(** X15 at [jws_key_1], verified with its own payload as [detachedPayload]. *)
Lemma attached_verified_as_detached_witness :
  Crypto.verify world {| detachedPayload := Some [x01; x02; x03];
                         signature := jws_key_1 |}
  = ([], Thrown MalformedSignature).
Proof.
  apply (@attached_verified_as_detached Z byte primitives world
           {| detached := false; payload := [x01; x02; x03];
              privateKeyJwk := ed25519Key; kid := "did:example:abc#key-1" |}
           jws_key_1 [x01; x02; x03]).
  - reflexivity.
  - vm_compute. reflexivity.
  - vm_compute. discriminate.
Defined.

(** X16 at [secp256k1Key] and the bytes 1, 2, 3. *)
Lemma detached_verified_as_attached_witness :
  exists jws,
    outcome (Crypto.sign world {| detached := true; payload := [x01; x02; x03];
                                  privateKeyJwk := secp256k1Key;
                                  kid := "did:example:abc#key-2" |})
    = Returned jws
    /\ outcome (Crypto.verify world {| detachedPayload := None; signature := jws |})
       = Thrown IntegrityMismatch.
Proof.
  apply (@detached_verified_as_attached Z byte primitives world
           secp256k1Key secp256k1PublicKey "did:example:abc#key-2" [x01; x02; x03]
           (x01 :: "Q"%byte
                :: signing_input world (Crypto.secp256k1Signer world)
                     "did:example:abc#key-2" [x01; x02; x03])
           (Crypto.secp256k1Signer world) "Q"%byte "Q"%byte).
  - reflexivity.
  - discriminate.
  - reflexivity.
  - reflexivity.
  - exact secp256k1_published.
  - constructor; vm_compute; reflexivity.
  - vm_compute. discriminate.
  - apply tagged_rejects_other_data. reflexivity.
Defined.

End FurtherRuns.
